(** * typm: version constraints, git sources and package materialization

    A shallow embedding of [src/typm/utils.py], [src/typm/models.py] and the
    [build] and [install] commands of [src/typm/cli.py], with the properties
    the specification states about them.

    Modelling conventions.
    - A Python [str] is a [string]; each [ascii] stands for one code point
      below 256.  On that range the character classes used by the program
      ([str.isspace], the regex classes [\s] and [\d], [str.lower],
      [str.splitlines]) are the ones written out in [Module Py].
    - Exceptions are values of [exn]; a function that may raise returns a
      [result].
    - Paths are kept in resolved form (absolute, a list of components); the
      file system is a finite map from such paths to nodes, and symbolic
      links are not modelled. *)

From Stdlib Require Import ZArith Lia Bool Ascii String.
From stdpp Require Import base option list strings gmap.

Local Open Scope Z_scope.

(** ** Exceptions and results *)

Inductive exn :=
| BadParameter (msg : string)      (* typer.BadParameter *)
| Exit (code : Z)                  (* typer.Exit *)
| ValueError (msg : string)
| OSError (msg : string).

Inductive result (A : Type) :=
| Ok (a : A)
| Raise (e : exn).
Arguments Ok {A} a.
Arguments Raise {A} e.

Global Instance result_ret : MRet result := fun _ a => Ok a.

Global Instance result_bind : MBind result := fun _ _ k r =>
  match r with
  | Ok a => k a
  | Raise e => Raise e
  end.

(** ** Python string operations *)

Module Py.

(** [str.isspace] on a character, which is also the regex class [\s]. *)
Definition isspace (c : ascii) : bool :=
  let n := N_of_ascii c in
  ((9 <=? n) && (n <=? 13) || (28 <=? n) && (n <=? 32)
   || (n =? 133) || (n =? 160))%N.

(** The regex class [\d], with the value [int] gives the digit. *)
Definition digit (c : ascii) : option Z :=
  let n := N_of_ascii c in
  if ((48 <=? n) && (n <=? 57))%N then Some (Z.of_N n - 48) else None.

(** The boundaries [str.splitlines] splits at. *)
Definition islinebreak (c : ascii) : bool :=
  let n := N_of_ascii c in
  ((10 <=? n) && (n <=? 13) || (28 <=? n) && (n <=? 30) || (n =? 133))%N.

(** [str.lower] on a character. *)
Definition lower_char (c : ascii) : ascii :=
  let n := N_of_ascii c in
  if ((65 <=? n) && (n <=? 90)
      || (192 <=? n) && (n <=? 222) && negb (n =? 215))%N
  then ascii_of_N (n + 32) else c.

Fixpoint lower (s : string) : string :=
  match s with
  | "" => ""
  | String c s' => String (lower_char c) (lower s')
  end.

(** [s.startswith(p)] and [s.endswith(p)]. *)
Definition startswith (s p : string) : bool := String.prefix p s.

Fixpoint endswith (s p : string) : bool :=
  if String.eqb s p then true
  else match s with
       | "" => false
       | String _ s' => endswith s' p
       end.

(** [s[n:]]. *)
Fixpoint drop (n : nat) (s : string) : string :=
  match n, s with
  | O, _ => s
  | S n', String _ s' => drop n' s'
  | S _, "" => ""
  end.

(** [c in s] for a character. *)
Fixpoint contains_char (c : ascii) (s : string) : bool :=
  match s with
  | "" => false
  | String d s' => Ascii.eqb c d || contains_char c s'
  end.

(** [sub in s] for a substring. *)
Fixpoint contains (sub s : string) : bool :=
  String.prefix sub s
  || match s with
     | "" => false
     | String _ s' => contains sub s'
     end.

(** Puts a character in front of the first string of a list. *)
Definition cons_head (c : ascii) (l : list string) : list string :=
  match l with
  | [] => [String c ""]
  | t :: ts => String c t :: ts
  end.

(** [s.split()]: the maximal runs of characters that are not white space. *)
Fixpoint split_ws (s : string) : list string :=
  match s with
  | "" => []
  | String c s' =>
      if isspace c then split_ws s'
      else match s' with
           | "" => [String c ""]
           | String d _ =>
               if isspace d then String c "" :: split_ws s'
               else cons_head c (split_ws s')
           end
  end.

(** [s.split(sep)] for a one-character separator. *)
Fixpoint split (sep : ascii) (s : string) : list string :=
  match s with
  | "" => [""]
  | String c s' =>
      if Ascii.eqb c sep then "" :: split sep s'
      else cons_head c (split sep s')
  end.

(** [s.split(sep, 1)]. *)
Fixpoint split1 (sep : ascii) (s : string) : list string :=
  match s with
  | "" => [""]
  | String c s' =>
      if Ascii.eqb c sep then [""; s']
      else cons_head c (split1 sep s')
  end.

(** [sep.join(l)]. *)
Definition join (sep : string) (l : list string) : string :=
  String.concat sep l.

(** [s.lstrip()]. *)
Fixpoint lstrip (s : string) : string :=
  match s with
  | "" => ""
  | String c s' => if isspace c then lstrip s' else s
  end.

(** [s.rstrip(c)] for a one-character argument. *)
Fixpoint rstrip (c : ascii) (s : string) : string :=
  match s with
  | "" => ""
  | String d s' =>
      match rstrip c s' with
      | "" => if Ascii.eqb d c then "" else String d ""
      | r => String d r
      end
  end.

(** [s.removesuffix(p)]. *)
Fixpoint removesuffix (s p : string) : string :=
  if String.eqb s p then
    match p with "" => s | _ => "" end
  else match s with
       | "" => ""
       | String c s' => String c (removesuffix s' p)
       end.

(** [s.splitlines()]: a line ends at a line boundary, [\r\n] counts as
    one boundary, and no empty last line is reported after a final
    boundary. *)
Fixpoint splitlines (s : string) : list string :=
  match s with
  | "" => []
  | String c s' =>
      if islinebreak c then
        match s' with
        | String d s'' =>
            if Ascii.eqb c "013" && Ascii.eqb d "010"
            then "" :: splitlines s''
            else "" :: splitlines s'
        | "" => [""]
        end
      else cons_head c (splitlines s')
  end.

End Py.


(** ** Semantic versions and compiler requirements ([utils.py]) *)

Module Semver.

Definition version : Type := Z * Z * Z.

(** A maximal run of decimal digits, read as [int] reads it. *)
Fixpoint read_digits (acc : Z) (s : string) : Z * string :=
  match s with
  | "" => (acc, "")
  | String c s' =>
      match Py.digit c with
      | Some d => read_digits (10 * acc + d) s'
      | None => (acc, s)
      end
  end.

(** The regex group [(\d+)]: at least one digit. *)
Definition number (s : string) : option (Z * string) :=
  match s with
  | "" => None
  | String c s' =>
      match Py.digit c with
      | Some d => Some (read_digits d s')
      | None => None
      end
  end.

(** The literal [\.] of the pattern. *)
Definition dot (s : string) : option string :=
  match s with
  | String "." s' => Some s'
  | _ => None
  end.

(** [re.match(r"^\s*(\d+)\.(\d+)\.(\d+)", v)] with the three groups
    converted by [int]. *)
Definition match_semver (v : string) : option version :=
  '(major, s1) ← number (Py.lstrip v);
  s1 ← dot s1;
  '(minor, s2) ← number s1;
  s2 ← dot s2;
  '(patch, _) ← number s2;
  Some (major, minor, patch).

Definition parse_semver (v : string) : result version :=
  match match_semver v with
  | None => Raise (BadParameter ("Invalid semantic version: " +:+ v))
  | Some t => Ok t
  end.

(** Python's order on tuples of three integers. *)
Definition tuple_lt (a b : version) : bool :=
  let '(a1, a2, a3) := a in
  let '(b1, b2, b3) := b in
  (a1 <? b1) || (a1 =? b1) && ((a2 <? b2) || (a2 =? b2) && (a3 <? b3)).

Definition cmp_semver (a b : version) : Z :=
  Z.b2z (tuple_lt b a) - Z.b2z (tuple_lt a b).

(** The comparison operators of a requirement. *)
Inductive operator := Ge | Le | EqEq | Ne | Gt | Lt | Eq.

Definition op_str (o : operator) : string :=
  match o with
  | Ge => ">=" | Le => "<=" | EqEq => "==" | Ne => "!="
  | Gt => ">" | Lt => "<" | Eq => "="
  end.

(** The tuple [(">=", "<=", "==", "!=", ">", "<", "=")], in its order. *)
Definition operators : list operator := [Ge; Le; EqEq; Ne; Gt; Lt; Eq].

(** The loop [for prefix in (...): if t.startswith(prefix): ... break]:
    the first operator that is a prefix of [t], and [t[len(prefix):]]. *)
Fixpoint find_prefix (ops : list operator) (t : string)
  : option (operator * string) :=
  match ops with
  | [] => None
  | o :: ops' =>
      if Py.startswith t (op_str o)
      then Some (o, Py.drop (String.length (op_str o)) t)
      else find_prefix ops' t
  end.

(** [tokens[i] in (">=", "<=", "==", "!=", ">", "<", "=")]. *)
Fixpoint find_operator (ops : list operator) (t : string) : option operator :=
  match ops with
  | [] => None
  | o :: ops' => if String.eqb t (op_str o) then Some o else find_operator ops' t
  end.

(** The dictionary from operators to the outcome for comparison result [c]. *)
Definition op_ok (o : operator) (c : Z) : bool :=
  match o with
  | Gt => c >? 0
  | Lt => c <? 0
  | Ge => c >=? 0
  | Le => c <=? 0
  | EqEq => c =? 0
  | Eq => c =? 0
  | Ne => negb (c =? 0)
  end.

(** The part of the loop body after [op] and [v] are known: the operand is
    parsed, a failure of which is caught and gives [False]. *)
Definition check (ver : version) (o : operator) (v : string) : bool :=
  match parse_semver v with
  | Raise _ => false
  | Ok sv => op_ok o (cmp_semver ver sv)
  end.

(** The [while i < len(tokens)] loop, on the tokens from index [i] on. *)
Fixpoint req_loop (ver : version) (tokens : list string) : bool :=
  match tokens with
  | [] => true
  | t :: rest =>
      match find_prefix operators t with
      | Some (o, v) =>
          if check ver o v then req_loop ver rest else false
      | None =>
          match find_operator operators t, rest with
          | Some o, v :: rest' =>
              (* separated operator and version *)
              if check ver o v then req_loop ver rest' else false
          | _, _ =>
              (* unknown token, ignored *)
              req_loop ver rest
          end
      end
  end.

Definition matches_version_req (req : string) (ver : version) : bool :=
  let tokens := Py.split_ws req in
  match tokens with
  | [] => true
  | _ => req_loop ver tokens
  end.

(** The constraints of a requirement as the specification words their
    recognition: a token with an operator prefix gives that operator and
    the rest of the token; failing that, a token that is an operator gives
    it and the next token, both consumed; any other token is skipped. *)
Fixpoint recognized (tokens : list string) : list (operator * string) :=
  match tokens with
  | [] => []
  | t :: rest =>
      match find_prefix operators t with
      | Some (o, v) => (o, v) :: recognized rest
      | None =>
          match find_operator operators t, rest with
          | Some o, v :: rest' => (o, v) :: recognized rest'
          | _, _ => recognized rest
          end
      end
  end.

(** A constraint holds of a version when its operand parses and compares
    with the version as the operator asks. *)
Definition holds (ver : version) (c : operator * string) : bool :=
  match match_semver c.2 with
  | None => false
  | Some sv => op_ok c.1 (cmp_semver ver sv)
  end.

(** The order of version triples: the first component that differs
    decides. *)
Definition before (a b : version) : Prop :=
  a.1.1 < b.1.1
  ∨ (a.1.1 = b.1.1 ∧ (a.1.2 < b.1.2 ∨ (a.1.2 = b.1.2 ∧ a.2 < b.2))).

(** What an operator asks of a version and the operand of a constraint. *)
Definition satisfies (ver : version) (o : operator) (sv : version) : Prop :=
  match o with
  | Gt => before sv ver
  | Lt => before ver sv
  | Ge => before sv ver ∨ ver = sv
  | Le => before ver sv ∨ ver = sv
  | EqEq | Eq => ver = sv
  | Ne => ver ≠ sv
  end.

(** A token read as a constraint: the longest operator the token starts
    with, and the rest of the token as its operand. *)
Definition reads_as (t : string) (o : operator) (v : string) : Prop :=
  t = op_str o +:+ v
  ∧ ∀ o' v', t = op_str o' +:+ v' →
      (String.length (op_str o') ≤ String.length (op_str o))%nat.

End Semver.

(** ** Paths as [pathlib] parses them *)

Module Pathlib.

(** A [PurePosixPath]: the root (empty, one slash or two) and the
    components.  Two paths are equal when both fields are. *)
Record PurePath := { root : string; parts : list string }.

(** [Path(s)]: empty components and [.] components are dropped, [..] is
    kept as it is. *)
Definition Path (s : string) : PurePath :=
  {| root :=
       if Py.startswith s "/" then
         if Py.startswith s "//" && negb (Py.startswith s "///")
         then "//" else "/"
       else "";
     parts := filter (λ x, x ≠ "" ∧ x ≠ ".") (Py.split "/" s) |}.

(** [p / s]: a segment that starts at the root replaces what is before
    it. *)
Definition joinpath (p : PurePath) (s : string) : PurePath :=
  if Py.startswith s "/" then Path s
  else {| root := root p; parts := parts p ++ parts (Path s) |}.

(** [str(p)]. *)
Definition to_str (p : PurePath) : string :=
  match root p, parts p with
  | "", [] => "."
  | r, l => r +:+ Py.join "/" l
  end.

(** [p.name]: the last component. *)
Definition name (p : PurePath) : string := List.last (parts p) "".

(** [Path(s).suffix] of a file name. *)
Fixpoint suffix_from (s : string) : option string :=
  match s with
  | "" => None
  | String c s' =>
      match suffix_from s' with
      | Some x => Some x
      | None => if Ascii.eqb c "." then Some s else None
      end
  end.

Definition suffix (name : string) : string :=
  match name with
  | "" => ""
  | String _ tail =>
      (* the last dot, unless it is the first or the last character *)
      match suffix_from tail with
      | Some "." => ""
      | Some x => x
      | None => ""
      end
  end.

End Pathlib.

(** ** Git sources ([models.py], [utils.py]) *)

Module Git.

Import Pathlib.

Record GitSourceDescriptor := {
  repo_url_for_clone : string;
  git_ref : option string;
  path_in_repo : PurePath;
  provider_host : string;
  user_or_org : string
}.

(** The fields of [urllib.parse.ParseResult] the resolver reads. *)
Record ParseResult := { scheme : string; netloc : string; path : string }.

(** The alias table of the resolver. *)
Definition hosts : gmap string string :=
  list_to_map [("gh", "github.com"); ("github", "github.com");
               ("gl", "gitlab.com"); ("gitlab", "gitlab.com");
               ("bb", "bitbucket.org"); ("bitbucket", "bitbucket.org")].

(** The hosts the resolver knows. *)
Definition known_hosts : list string :=
  ["github.com"; "gitlab.com"; "bitbucket.org"].

Definition nonempty (s : string) : bool := negb (String.eqb s "").

(** The f-string [https://{host}/{user}/{repo}.git]. *)
Definition clone_url (host user repo : string) : string :=
  "https://" +:+ host +:+ "/" +:+ user +:+ "/" +:+ repo +:+ ".git".

(** First part of [parse_git_source], the alias form
    [gh|gl|bb/user/repo[/path/in/repo]]; [None] when control falls through
    to the URL form. *)
Definition alias_form (git_source_url : string) : option GitSourceDescriptor :=
  let parts := Py.split "/" git_source_url in
  if bool_decide (3 ≤ length parts)%nat then
    let alias := Py.lower (parts !!! 0%nat) in
    let user := parts !!! 1%nat in
    let repo_and_path := Py.join "/" (drop 2 parts) in
    let host := default "" (hosts !! alias) in
    if nonempty host && nonempty user && nonempty repo_and_path then
      match take 2 (Py.split1 "/" repo_and_path ++ [""]) with
      | [repo_name; repo_path] =>
          if nonempty repo_name then
            Some {| repo_url_for_clone := clone_url host user repo_name;
                    git_ref := None;
                    path_in_repo := Path repo_path;
                    provider_host := host;
                    user_or_org := user |}
          else None
      | _ => None
      end
    else None
  else None.

(** The alias form as the specification words it: at least three
    segments between slashes, the first of which is, up to case, an alias
    of the table, a second segment for the owner and a third for the
    repository, neither empty. *)
Definition in_alias_form (git_source_url : string) : bool :=
  let segs := Py.split "/" git_source_url in
  bool_decide (3 ≤ length segs)%nat
  && bool_decide (is_Some (hosts !! Py.lower (segs !!! 0%nat)))
  && nonempty (segs !!! 1%nat)
  && nonempty (segs !!! 2%nat).

Section UrlForm.

(** [urllib.parse.urlparse], a library function: the resolver is written
    against any implementation of it. *)
Variable urlparse : string -> result ParseResult.

Definition is_tree_or_blob (s : string) : bool :=
  String.eqb s "tree" || String.eqb s "blob".

(** Second part of [parse_git_source], the URL form. *)
Definition url_form (git_source_url : string) : result GitSourceDescriptor :=
  u ← urlparse git_source_url;
  if negb (nonempty (scheme u)) || negb (nonempty (netloc u)) then
    Raise (BadParameter ("Invalid Git source URL or alias: " +:+ git_source_url))
  else
    let host := Py.lower (netloc u) in
    let host := if Py.startswith host "www." then Py.drop 4 host else host in
    let segs := filter (λ s, s ≠ "") (Py.split "/" (path u)) in
    if String.eqb host "github.com" && bool_decide (2 ≤ length segs)%nat then
      let user := segs !!! 0%nat in
      let repo := Py.removesuffix (segs !!! 1%nat) ".git" in
      let '(git_ref, path_parts) :=
        if bool_decide (3 < length segs)%nat && is_tree_or_blob (segs !!! 2%nat)
        then (Some (segs !!! 3%nat), drop 4 segs)
        else if bool_decide (2 < length segs)%nat then (None, drop 2 segs)
        else (None, []) in
      Ok {| repo_url_for_clone := clone_url host user repo;
            git_ref := git_ref;
            path_in_repo := Path (Py.join "/" path_parts);
            provider_host := host;
            user_or_org := user |}
    else if String.eqb host "gitlab.com" && bool_decide (2 ≤ length segs)%nat then
      let user := segs !!! 0%nat in
      let repo := Py.removesuffix (segs !!! 1%nat) ".git" in
      let '(git_ref, path_parts) :=
        if bool_decide (4 < length segs)%nat
           && String.eqb (segs !!! 2%nat) "-"
           && is_tree_or_blob (segs !!! 3%nat)
        then (Some (segs !!! 4%nat), drop 5 segs)
        else if bool_decide (2 < length segs)%nat then (None, drop 2 segs)
        else (None, []) in
      Ok {| repo_url_for_clone := clone_url host user repo;
            git_ref := git_ref;
            path_in_repo := Path (Py.join "/" path_parts);
            provider_host := host;
            user_or_org := user |}
    else if String.eqb host "bitbucket.org" && bool_decide (2 ≤ length segs)%nat then
      let user := segs !!! 0%nat in
      let repo := Py.removesuffix (segs !!! 1%nat) ".git" in
      let path_parts := if bool_decide (2 < length segs)%nat then drop 2 segs else [] in
      Ok {| repo_url_for_clone := clone_url host user repo;
            git_ref := None;
            path_in_repo := Path (Py.join "/" path_parts);
            provider_host := host;
            user_or_org := user |}
    else
      Raise (BadParameter
               ("Unsupported Git URL format or provider (or invalid alias): "
                +:+ git_source_url)).

Definition parse_git_source (git_source_url : string)
  : result GitSourceDescriptor :=
  match alias_form git_source_url with
  | Some d => Ok d
  | None => url_form git_source_url
  end.

End UrlForm.

End Git.

(** ** A reference [urlparse] *)

Module Urllib.

Import Git.

(** The characters a scheme is made of. *)
Definition scheme_char (c : ascii) : bool :=
  let n := N_of_ascii c in
  ((97 <=? n) && (n <=? 122) || (65 <=? n) && (n <=? 90)
   || (48 <=? n) && (n <=? 57) || (n =? 43) || (n =? 45) || (n =? 46))%N.

Definition ascii_alpha (c : ascii) : bool :=
  let n := N_of_ascii c in
  ((97 <=? n) && (n <=? 122) || (65 <=? n) && (n <=? 90))%N.

(** [url[:i]] and [url[i+1:]] for the first colon, when all of [url[:i]]
    are scheme characters. *)
Fixpoint split_scheme (url : string) : option (string * string) :=
  match url with
  | "" => None
  | String c url' =>
      if Ascii.eqb c ":" then Some ("", url')
      else if scheme_char c then
        '(s, r) ← split_scheme url'; Some (String c s, r)
      else None
  end.

(** The text up to the first of the given delimiters, and the rest. *)
Fixpoint split_at (delims : string) (s : string) : string * string :=
  match s with
  | "" => ("", "")
  | String c s' =>
      if Py.contains_char c delims then ("", s)
      else let '(a, b) := split_at delims s' in (String c a, b)
  end.

(** The schemes whose last path segment may carry parameters. *)
Definition uses_params : list string :=
  [""; "ftp"; "hdl"; "prospero"; "http"; "imap"; "https"; "shttp"; "rtsp";
   "rtspu"; "sip"; "sips"; "mms"; "sftp"; "tel"].

(** The path without the parameters of its last segment. *)
Fixpoint strip_params (segs : list string) : list string :=
  match segs with
  | [] => []
  | [x] => [(split_at ";" x).1]
  | x :: rest => x :: strip_params rest
  end.

(** The scheme and what follows its colon. *)
Definition take_scheme (url : string) : string * string :=
  match url with
  | String c _ =>
      if ascii_alpha c then
        match split_scheme url with
        | Some (String a s, r) => (Py.lower (String a s), r)
        | _ => ("", url)
        end
      else ("", url)
  | "" => ("", url)
  end.

(** The network location and what follows it. *)
Definition take_netloc (rest : string) : string * string :=
  if Py.startswith rest "//" then split_at "/?#" (Py.drop 2 rest)
  else ("", rest).

(** Modelled on the library's [urlparse]: scheme, network location and
    path of a URL.  The library's removal of control characters and its
    checks on bracketed and non-ASCII hosts are left out; this reference
    implementation only serves to read examples. *)
Definition urlparse (url : string) : result ParseResult :=
  let sch := (take_scheme url).1 in
  let loc := (take_netloc (take_scheme url).2).1 in
  let p := (split_at "?#" (take_netloc (take_scheme url).2).2).1 in
  Ok {| scheme := sch;
        netloc := loc;
        path := if bool_decide (sch ∈ uses_params)
                then Py.join "/" (strip_params (Py.split "/" p))
                else p |}.

End Urllib.

(** ** Shell patterns ([fnmatch.fnmatch] on POSIX) *)

Module Fnmatch.

(** The pieces a pattern is translated to. *)
Inductive item :=
| Star                              (* [*] *)
| Any                               (* [?] *)
| Lit (c : ascii)                   (* an ordinary character *)
| Bracket (chunks : list string).   (* [[...]], cut at its range hyphens *)

(** The text of a bracket expression: after the opening bracket, an
    optional [!], an optional [[]]], and everything up to the next closing
    bracket.  Gives that text and what follows the closing bracket. *)
Fixpoint upto_close (s : string) : option (string * string) :=
  match s with
  | "" => None
  | String c s' =>
      if Ascii.eqb c "]" then Some ("", s')
      else '(a, b) ← upto_close s'; Some (String c a, b)
  end.

Definition bracket_text (s : string) : option (string * string) :=
  let '(bang, s1) :=
    match s with String "!" t => ("!", t) | _ => ("", s) end in
  let '(rb, s2) :=
    match s1 with String "]" t => ("]", t) | _ => ("", s1) end in
  '(a, b) ← upto_close s2;
  Some (bang +:+ rb +:+ a, b).

(** The chunks between range hyphens.  A hyphen counts as a range hyphen
    only when [skip] is zero: not in first position (nor second after
    [!]), and not within two characters after the last range hyphen. *)
Fixpoint chunks_of (skip : nat) (s : string) : list string :=
  match s with
  | "" => [""]
  | String c s' =>
      match skip with
      | O => if Ascii.eqb c "-" then "" :: chunks_of 2 s'
             else Py.cons_head c (chunks_of 0 s')
      | S n => Py.cons_head c (chunks_of n s')
      end
  end.

(** A hyphen in last position is an ordinary character of the chunk
    before it. *)
Fixpoint close_chunks (l : list string) : list string :=
  match l with
  | [a; ""] => [a +:+ "-"]
  | a :: l' => a :: close_chunks l'
  | [] => []
  end.

Fixpoint last_char (s : string) : option ascii :=
  match s with
  | "" => None
  | String c "" => Some c
  | String _ s' => last_char s'
  end.

Fixpoint but_last (s : string) : string :=
  match s with
  | "" => ""
  | String c "" => ""
  | String c s' => String c (but_last s')
  end.

Definition code_lt (a b : ascii) : bool := (N_of_ascii a <? N_of_ascii b)%N.
Definition code_le (a b : ascii) : bool := (N_of_ascii a <=? N_of_ascii b)%N.

(** Ranges whose start is above their end are removed, from the right. *)
Fixpoint drop_empty_ranges (l : list string) : list string :=
  match l with
  | [] => []
  | a :: rest =>
      match drop_empty_ranges rest with
      | [] => [a]
      | b :: rest' =>
          match last_char a, b with
          | Some x, String y b' =>
              if code_lt y x then (but_last a +:+ b') :: rest'
              else a :: b :: rest'
          | _, _ => a :: b :: rest'
          end
      end
  end.

Definition bracket_chunks (text : string) : list string :=
  let skip := match text with String "!" _ => 2%nat | _ => 1%nat end in
  drop_empty_ranges (close_chunks (chunks_of skip text)).

(** The translation loop; each round consumes at least one character of
    the pattern, so its length is enough fuel. *)
Fixpoint translate_go (fuel : nat) (pat : string) : list item :=
  match fuel, pat with
  | O, _ => []
  | _, "" => []
  | S fuel', String c pat' =>
      if Ascii.eqb c "*" then Star :: translate_go fuel' pat'
      else if Ascii.eqb c "?" then Any :: translate_go fuel' pat'
      else if Ascii.eqb c "[" then
        match bracket_text pat' with
        | None => Lit "[" :: translate_go fuel' pat'
        | Some (text, rest) =>
            Bracket (bracket_chunks text) :: translate_go fuel' rest
        end
      else Lit c :: translate_go fuel' pat'
  end.

Definition translate (pat : string) : list item :=
  translate_go (String.length pat) pat.

(** Membership in the set a bracket expression denotes. *)
Fixpoint in_chunks (c : ascii) (l : list string) : bool :=
  match l with
  | [] => false
  | a :: rest =>
      Py.contains_char c a
      || match last_char a, rest with
         | Some x, String y _ :: _ => code_le x c && code_le c y
         | _, _ => false
         end
      || in_chunks c rest
  end.

Definition item_ok (it : item) (c : ascii) : bool :=
  match it with
  | Star => false
  | Any => true
  | Lit d => Ascii.eqb c d
  | Bracket (String "!" a :: rest) => negb (in_chunks c (a :: rest))
  | Bracket l => in_chunks c l
  end.

(** Matching of the whole name.  The translated expression commits to the
    shortest text for a star that is followed by more pattern; for
    patterns of this shape that accepts the same names as trying every
    split, which is what is written here. *)
Fixpoint match_items (items : list item) (name : string) : bool :=
  match items with
  | [] => String.eqb name ""
  | Star :: items' =>
      (fix star (n : string) : bool :=
         match_items items' n
         || match n with
            | "" => false
            | String _ n' => star n'
            end) name
  | it :: items' =>
      match name with
      | "" => false
      | String c name' => item_ok it c && match_items items' name'
      end
  end.

Definition fnmatch (name pat : string) : bool :=
  match_items (translate pat) name.

(** Free of the three characters that start a wildcard. *)
Definition literal (pat : string) : Prop :=
  Py.contains_char "*" pat = false
  ∧ Py.contains_char "?" pat = false
  ∧ Py.contains_char "[" pat = false.

End Fnmatch.

(** ** The file system *)

Module FS.

(** A resolved path: the components below the root directory. *)
Abbreviation path := (list string).

Inductive node :=
| File (data : string)   (* a regular file and its text as stored *)
| Dir.

Global Instance node_eq_dec : EqDecision node.
Proof. solve_decision. Defined.

Abbreviation fs := (gmap path node).

(** What is at a path; the root is a directory. *)
Definition node_at (f : fs) (p : path) : option node :=
  match p with
  | [] => Some Dir
  | _ => f !! p
  end.

Definition is_dir (f : fs) (p : path) : bool :=
  match node_at f p with
  | Some Dir => true
  | _ => false
  end.

Definition is_file (f : fs) (p : path) : bool :=
  match node_at f p with
  | Some (File _) => true
  | _ => false
  end.

(** [p.parent] and [p.name]. *)
Definition parent (p : path) : path := removelast p.
Definition basename (p : path) : string := List.last p "".

(** [str(p)]. *)
Definition str (p : path) : string :=
  match p with
  | [] => "/"
  | _ => "/" +:+ Py.join "/" p
  end.

(** [os.path.join(a, b)]. *)
Definition os_path_join (a b : string) : string :=
  if Py.startswith b "/" then b
  else if String.eqb a "" || Py.endswith a "/" then a +:+ b
  else a +:+ "/" +:+ b.

(** Resolution of a path string from directory [cur], one component at a
    time: every component is looked up in a directory, empty and [.]
    components stay there, [..] goes to the parent. *)
Fixpoint walk_to (f : fs) (cur : path) (comps : list string) : option path :=
  match comps with
  | [] => Some cur
  | c :: rest =>
      if is_dir f cur then
        if String.eqb c "" || String.eqb c "." then walk_to f cur rest
        else if String.eqb c ".." then walk_to f (parent cur) rest
        else match node_at f (cur ++ [c]) with
             | Some _ => walk_to f (cur ++ [c]) rest
             | None => None
             end
      else None
  end.

(** [os.path.isdir(s)] for an absolute path string. *)
Definition os_path_isdir (f : fs) (s : string) : bool :=
  match walk_to f [] (Py.split "/" s) with
  | Some p => is_dir f p
  | None => false
  end.

(** Number of leading components two paths share. *)
Fixpoint common (a b : path) : nat :=
  match a, b with
  | x :: a', y :: b' => if String.eqb x y then S (common a' b') else O
  | _, _ => O
  end.

(** [os.path.relpath(p, start)] for resolved paths. *)
Definition os_path_relpath (p start : path) : string :=
  let i := common start p in
  match (replicate (length start - i)%nat ".." ++ drop i p)%list with
  | [] => "."
  | rel_list => Py.join "/" rel_list
  end.

(** [p.relative_to(base)]: the components of [p] below [base]. *)
Fixpoint relative_to (p base : path) : option path :=
  match base, p with
  | [], _ => Some p
  | b :: base', x :: p' => if String.eqb b x then relative_to p' base' else None
  | _ :: _, [] => None
  end.

(** [p.is_relative_to(base)]. *)
Definition is_relative_to (p base : path) : bool :=
  bool_decide (base `prefix_of` p).

(** [p.mkdir(parents=True, exist_ok=True)]: the directories from [cur]
    down to the path are created where missing; a regular file in the way
    is an error. *)
Fixpoint mkdir_from (f : fs) (cur : path) (rest : list string) : result fs :=
  match rest with
  | [] => Ok f
  | c :: rest' =>
      match f !! (cur ++ [c]) with
      | Some Dir => mkdir_from f (cur ++ [c]) rest'
      | Some (File _) => Raise (OSError "FileExistsError")
      | None => mkdir_from (<[cur ++ [c] := Dir]> f) (cur ++ [c]) rest'
      end
  end.

Definition mkdir_parents (f : fs) (p : path) : result fs := mkdir_from f [] p.

(** The entries of directory [top], as [os.scandir] lists them: the names
    of the directories and the names of everything else. *)
Definition entry_of (top : path) (kn : path * node) : option (string * node) :=
  match relative_to kn.1 top with
  | Some [name] => Some (name, kn.2)
  | _ => None
  end.

Definition entries (f : fs) (top : path) : list (string * node) :=
  omap (entry_of top) (map_to_list f).

Definition scandir (f : fs) (top : path) : option (list string * list string) :=
  if is_dir f top then
    let es := entries f top in
    Some ((filter (λ e, e.2 = Dir) es).*1, (filter (λ e, e.2 ≠ Dir) es).*1)
  else None.

(** Text mode input: [\r\n] and a lone [\r] are read as [\n]. *)
Fixpoint universal_newlines (s : string) : string :=
  match s with
  | "" => ""
  | String c s' =>
      if Ascii.eqb c "013" then
        match s' with
        | String "010" s'' => String "010" (universal_newlines s'')
        | _ => String "010" (universal_newlines s')
        end
      else String c (universal_newlines s')
  end.

End FS.

(** ** Exclusion rules ([should_exclude]) *)

Module Exclude.

Import FS.

(** [any(c in pattern for c in "*?[]")]. *)
Definition has_glob_chars (pattern : string) : bool :=
  existsb (λ c, Py.contains_char c pattern) ["*"; "?"; "["; "]"]%char.

(** [pattern.rstrip("/").rstrip(os.sep)]. *)
Definition strip_sep (pattern : string) : string :=
  Py.rstrip "/" (Py.rstrip "/" pattern).

(** The body of the loop over the patterns, for one pattern. *)
Definition pattern_excludes (f : fs) (base_dir : path) (rel_path pattern : string)
  : bool :=
  if Fnmatch.fnmatch rel_path pattern then true
  else if Py.endswith pattern "/"
          || negb (has_glob_chars pattern)
             && os_path_isdir f (os_path_join (str base_dir) pattern)
  then
    let p := strip_sep pattern in
    String.eqb rel_path p || Py.startswith rel_path (p +:+ "/")
  else false.

Definition should_exclude (f : fs) (file_path : path)
    (exclude_patterns : list string) (base_dir : path) : bool :=
  let rel_path := os_path_relpath file_path base_dir in
  existsb (pattern_excludes f base_dir rel_path) exclude_patterns.

End Exclude.

(** ** Per-file transformations ([copy_files]) *)

Module Transform.

(** The double quote character, and the string made of it. *)
Definition dquote : ascii := "034"%char.
Definition quote : string := String dquote "".

(** [s[len(p):]] when [s] starts with [p]. *)
Fixpoint strip (p s : string) : option string :=
  match p, s with
  | "", _ => Some s
  | String a p', String b s' => if Ascii.eqb a b then strip p' s' else None
  | String _ _, "" => None
  end.

(** The text up to the next double quote, and the text after that quote. *)
Fixpoint upto_quote (s : string) : option (string * string) :=
  match s with
  | "" => None
  | String c s' =>
      if Ascii.eqb c dquote then Some ("", s')
      else '(a, b) ← upto_quote s'; Some (String c a, b)
  end.

Section ImportRe.

Variable entrypoint_name : string.
Variable full_package_import : string.

(** The end of the pattern, the optional second group and the closing
    quote.  The group is empty, or a colon, white space and characters
    other than the quote, as many as there are: so a colon with all that
    follows up to the closing quote.  Gives the group and the text after
    the match. *)
Definition clause (s : string) : option (string * string) :=
  match s with
  | String c s' =>
      if Ascii.eqb c ":" then
        '(a, b) ← upto_quote s'; Some (String ":" a, b)
      else if Ascii.eqb c dquote then Some ("", s')
      else None
  | "" => None
  end.

(** The entry point's file name, then [clause]. *)
Definition after_parents (s : string) : option (string * string) :=
  s' ← strip entrypoint_name s; clause s'.

(** [(?:\.\./)+] after its first repetition: more repetitions are tried
    first, then the rest of the pattern from here. *)
Fixpoint parents (s : string) : option (string * string) :=
  match s with
  | String "." (String "." (String "/" s')) =>
      match parents s' with
      | Some r => Some r
      | None => after_parents s
      end
  | _ => after_parents s
  end.

(** A match of [import_re] at the start of [s]: group 2 and the text after
    the match. *)
Definition match_at (s : string) : option (string * string) :=
  s1 ← strip "#import" s;
  match s1 with
  | String c _ =>
      if Py.isspace c then
        s2 ← strip quote (Py.lstrip s1);
        s3 ← strip "../" s2;
        parents s3
      else None
  | "" => None
  end.

(** The replacement: [#import], a space, and between quotes the package
    import followed by group 2. *)
Definition replacement (group2 : string) : string :=
  "#import " +:+ quote +:+ full_package_import +:+ group2 +:+ quote.

(** [import_re.sub(..., content)], scanning from the left; [skip] counts
    the characters of the current match that are still to be passed. *)
Fixpoint sub_from (skip : nat) (s : string) : string :=
  match s with
  | "" => ""
  | String c s' =>
      match skip with
      | S n => sub_from n s'
      | O =>
          match match_at s with
          | Some (group2, rest) =>
              replacement group2
              +:+ sub_from (String.length s - String.length rest - 1) s'
          | None => String c (sub_from 0 s')
          end
      end
  end.

Definition rewrite_imports (content : string) : string := sub_from 0 content.

End ImportRe.

(** [line.lstrip().startswith("#:schema")]. *)
Definition is_schema_line (line : string) : bool :=
  Py.startswith (Py.lstrip line) "#:schema".

(** The line feed, as a string. *)
Definition newline : string := String "010" "".

(** A line free of line boundaries. *)
Definition no_break (line : string) : Prop :=
  ∀ c, Py.islinebreak c = true → Py.contains_char c line = false.

(** The manifest without its schema lines. *)
Definition filtered (content : string) : string :=
  Py.join newline
    (List.filter (λ line, negb (is_schema_line line)) (Py.splitlines content)).

(** A file in which texts alternate with occurrences of [occurrence]:
    each text of the list is followed by one, and [tail] ends the file. *)
Definition interleave (texts : list string) (occurrence tail : string) : string :=
  foldr (λ t acc, t +:+ occurrence +:+ acc) tail texts.

(** The self-import of the specification's example and what it becomes. *)
Definition self_import : string :=
  "#import " +:+ quote +:+ "../../main.typ" +:+ quote +:+ ": *".

Definition package_import : string :=
  "#import " +:+ quote +:+ "@preview/foo:1.0.0" +:+ quote +:+ ": *".

(** Text that holds no import statement. *)
Definition quiet (t : string) : bool := negb (Py.contains "#import" t).

(** What may follow a piece of quiet text: the end of the file, or a
    number sign. *)
Definition opens_import (next : string) : Prop :=
  next = "" ∨ ∃ n, next = String "#" n.

End Transform.

(** ** Materialization ([copy_files]) *)

Module Materialize.

Import FS.

(** What a run does to files, in order. *)
Inductive event :=
| Matched (p : path)                 (* [p] was tested against the exclusion rules *)
| ReadFile (p : path)                (* the content of [p] was read *)
| Written (p : path) (data : string).  (* [data] was written to [p] *)

(** The file system and the events so far. *)
Record state := { files : fs; log : list event }.

(** How far a computation got: it returned, it raised, or it is still
    running when the rounds allotted to the directory walk are over. *)
Inductive outcome (A : Type) :=
| Done (a : A)
| Raised (e : exn)
| Running.
Arguments Done {A} a.
Arguments Raised {A} e.
Arguments Running {A}.

(** A computation on the state. *)
Definition M (A : Type) : Type := state → outcome A * state.

Global Instance M_ret : MRet M := λ _ a st, (Done a, st).

Global Instance M_bind : MBind M := λ _ _ k m st,
  match m st with
  | (Done a, st') => k a st'
  | (Raised e, st') => (Raised e, st')
  | (Running, st') => (Running, st')
  end.

Definition raise {A} (e : exn) : M A := λ st, (Raised e, st).

Definition get_files : M fs := λ st, (Done (files st), st).

Definition put_files (f : fs) : M unit :=
  λ st, (Done tt, {| files := f; log := log st |}).

Definition emit (e : event) : M unit :=
  λ st, (Done tt, {| files := files st; log := log st ++ [e] |}).

Definition lift {A} (r : result A) : M A :=
  match r with
  | Ok a => mret a
  | Raise e => raise e
  end.

(** A [for] loop. *)
Fixpoint for_each {A} (l : list A) (body : A → M unit) : M unit :=
  match l with
  | [] => mret tt
  | a :: l' => body a;; for_each l' body
  end.

(** [p.mkdir(parents=True, exist_ok=True)]. *)
Definition mkdir (p : path) : M unit :=
  f ← get_files; f' ← lift (mkdir_parents f p); put_files f'.

(** [p.read_text(encoding="utf-8")]. *)
Definition read_text (p : path) : M string :=
  f ← get_files;
  match node_at f p with
  | Some (File data) => emit (ReadFile p);; mret (universal_newlines data)
  | Some Dir => raise (OSError "IsADirectoryError")
  | None => raise (OSError "FileNotFoundError")
  end.

(** Creation or replacement of the regular file [p]. *)
Definition store (p : path) (data : string) : M unit :=
  f ← get_files;
  if is_dir f p then raise (OSError "IsADirectoryError")
  else if negb (is_dir f (parent p)) then raise (OSError "FileNotFoundError")
  else put_files (<[p := File data]> f);; emit (Written p data).

(** [p.write_text(data, encoding="utf-8")]. *)
Definition write_text (p : path) (data : string) : M unit := store p data.

(** [shutil.copy2(src, dst)]: a destination that is a directory receives
    the file under its own name. *)
Definition copy2 (src dst : path) : M unit :=
  f ← get_files;
  let dst := if is_dir f dst then dst ++ [basename src] else dst in
  match node_at f src with
  | Some (File data) =>
      if bool_decide (src = dst) then raise (OSError "SameFileError")
      else emit (ReadFile src);; store dst data
  | Some Dir => raise (OSError "IsADirectoryError")
  | None => raise (OSError "FileNotFoundError")
  end.

(** An event respects the destination [dest] when what is matched or read
    lies outside it and what is written lies inside it. *)
Definition respects (dest : path) (e : event) : Prop :=
  match e with
  | Matched p | ReadFile p => ¬ dest `prefix_of` p
  | Written p _ => dest `prefix_of` p ∧ p ≠ dest
  end.

(** The destination and the directories above it exist. *)
Definition rooted (dest : path) (f : fs) : Prop :=
  ∀ q, q `prefix_of` dest → is_dir f q = true.

(** Two file systems that agree outside the destination. *)
Definition same_outside (dest : path) (f f' : fs) : Prop :=
  ∀ k, ¬ dest `prefix_of` k → f' !! k = f !! k.

(** A step from [st] to [st'] that keeps the destination in place, leaves
    everything outside it as it was, and adds only events that respect
    it. *)
Definition confined (dest : path) (st st' : state) : Prop :=
  rooted dest (files st')
  ∧ same_outside dest (files st) (files st')
  ∧ ∃ evs, log st' = log st ++ evs ∧ Forall (respects dest) evs.

Section CopyFiles.

Variable source_dir dest_dir : path.
Variable exclude_patterns : list string.
Variable package_import_base package_version package_entrypoint : string.

Definition entrypoint_name : string :=
  Pathlib.name (Pathlib.Path package_entrypoint).

Definition full_package_import : string :=
  "@" +:+ package_import_base +:+ ":" +:+ package_version.

(** What is written for a file called [name] whose stored text is [raw]:
    the three branches of the loop body. *)
Definition transform (name raw : string) : string :=
  if String.eqb name "typst.toml" then
    Transform.filtered (universal_newlines raw)
  else if String.eqb (Pathlib.suffix name) ".typ" then
    Transform.rewrite_imports entrypoint_name full_package_import
      (universal_newlines raw)
  else raw.

(** The body of the loop over [files], for the file [name] of directory
    [root]. *)
Definition copy_file (root : path) (name : string) : M unit :=
  let src_path := root ++ [name] in
  f ← get_files;
  emit (Matched src_path);;
  if Exclude.should_exclude f src_path exclude_patterns source_dir
  then mret tt
  else
    match relative_to src_path source_dir with
    | None => raise (ValueError "not in the subpath")
    | Some rel_path =>
        let dst_path := dest_dir ++ rel_path in
        mkdir (parent dst_path);;
        if String.eqb name "typst.toml" then
          content ← read_text src_path;
          write_text dst_path (Transform.filtered content)
        else if String.eqb (Pathlib.suffix name) ".typ" then
          content ← read_text src_path;
          write_text dst_path
            (Transform.rewrite_imports entrypoint_name full_package_import
               content)
        else copy2 src_path dst_path
    end.

(** The body of the loop over the directories of the walk. *)
Definition visit (root : path) (files : list string) : M unit :=
  if is_relative_to root dest_dir then mret tt   (* the destination subtree *)
  else for_each files (copy_file root).

(** [for root, dirs, files in os.walk(source_dir)]: directories wait on a
    stack, each is listed when its turn comes, the loop body runs, and its
    subdirectories go on the stack in front of the others.  A directory
    that cannot be listed is passed over. *)
Fixpoint walk (fuel : nat) (stack : list path) : M unit :=
  match fuel with
  | O => λ st, (Running, st)
  | S fuel' =>
      match stack with
      | [] => mret tt
      | top :: stack' =>
          f ← get_files;
          match scandir f top with
          | None => walk fuel' stack'
          | Some (dirs, nondirs) =>
              visit top nondirs;;
              walk fuel' (((λ d, top ++ [d]) <$> dirs) ++ stack')
          end
      end
  end.

Definition copy_files (fuel : nat) : M unit :=
  mkdir dest_dir;;
  walk fuel [source_dir].

End CopyFiles.

End Materialize.

(** ** The commands ([cli.py]) *)

Module Cli.

Import FS Materialize.

(** The keys of [typst.toml] the commands read, as [cfg.get] finds them;
    [None] is a key that is absent. *)
Record Manifest := {
  package_name : option string;
  package_version : option string;
  package_exclude : list string;
  package_entrypoint : option string;
  package_compiler : option string;
  template_path : option string;
  template_entrypoint : option string;
  template_thumbnail : option string
}.

(** What lies outside the program: the TOML parser, the external tools and
    the process environment. *)
Record World := {
  toml_load : string → result Manifest;        (* [tomllib.load] on a file's text *)
  urlparse : string → result Git.ParseResult;  (* [urllib.parse.urlparse] *)
  typst_version_stdout : result string;        (* output of [typst --version] *)
  typst : list string → path → fs → result (Z * fs);
                                               (* a [typst] run in a directory: exit status and files *)
  git : list string → fs → result (Z * fs);    (* a [git] run *)
  prompt : Z;                                  (* the number typed at [typer.prompt] *)
  tmpdir : path;                               (* the directory [TemporaryDirectory] makes *)
  data_dir : path;                             (* [linux_data_dir()] *)
  cwd : path                                   (* the working directory *)
}.

(** Truth value of an optional string: present and not empty. *)
Definition truthy (o : option string) : bool :=
  match o with
  | Some s => Git.nonempty s
  | None => false
  end.

(** Components of a path with the [..] components applied. *)
Fixpoint normalize (acc : path) (comps : list string) : path :=
  match comps with
  | [] => acc
  | c :: rest =>
      if String.eqb c ".." then normalize (parent acc) rest
      else normalize (acc ++ [c]) rest
  end.

(** The resolved path that [p] names in directory [dir]. *)
Definition locate (dir : path) (p : Pathlib.PurePath) : path :=
  normalize (if String.eqb (Pathlib.root p) "" then dir else [])
            (Pathlib.parts p).

Section Commands.

Variable w : World.

Definition read_toml (p : path) : M Manifest :=
  f ← get_files;
  match node_at f p with
  | Some (File data) => lift (toml_load w data)
  | Some Dir => raise (OSError "IsADirectoryError")
  | None => raise (OSError "FileNotFoundError")
  end.

Definition validate_package_name (package_name : string) (toml_dir : path)
  : result unit :=
  let parent_dir_name := basename toml_dir in
  if negb (String.eqb package_name parent_dir_name) then
    Raise (BadParameter
             ("Package name '" +:+ package_name
              +:+ "' does not match parent directory name '"
              +:+ parent_dir_name +:+ "'"))
  else Ok tt.

Definition get_typst_version : result Semver.version :=
  match typst_version_stdout w with
  | Raise _ => Raise (Exit 1)
  | Ok out =>
      match Py.split_ws out with
      | _ :: v :: _ => Semver.parse_semver v
      | _ => Raise (Exit 1)
      end
  end.

(** The check of the compiler requirement, the same in both commands. *)
Definition check_compiler (compiler_req : option string) : result unit :=
  if truthy compiler_req then
    current ← get_typst_version;
    if negb (Semver.matches_version_req (default "" compiler_req) current)
    then Raise (Exit 1)
    else Ok tt
  else Ok tt.

(** A [typst] run whose failure ends the command. *)
Definition run_typst (args : list string) (dir : path) : M unit :=
  f ← get_files;
  match typst w args dir f with
  | Raise _ => raise (Exit 1)
  | Ok (returncode, f') =>
      put_files f';;
      if negb (returncode =? 0) then raise (Exit 1) else mret tt
  end.

Definition template_full_path (package_name template_path template_entrypoint : string)
  : string :=
  Pathlib.to_str
    (Pathlib.joinpath
       (Pathlib.joinpath (Pathlib.Path package_name) template_path)
       template_entrypoint).

Definition compile_template (toml_dir : path)
    (package_name template_path template_entrypoint : string) : M unit :=
  let project_root := parent toml_dir in
  run_typst
    ["compile"; "--root"; ".";
     template_full_path package_name template_path template_entrypoint]
    project_root.

Definition generate_thumbnail (toml_dir : path)
    (package_name template_path template_entrypoint thumbnail_path : string)
  : M unit :=
  let project_root := parent toml_dir in
  run_typst
    ["compile"; "--root"; "."; "--pages"; "1";
     template_full_path package_name template_path template_entrypoint;
     Pathlib.to_str (Pathlib.joinpath (Pathlib.Path package_name) thumbnail_path)]
    project_root.

(** The exclusion list [build] hands to [copy_files]. *)
Definition build_exclude (package_exclude : list string) (out_name : string)
  : list string :=
  if bool_decide (out_name ∈ package_exclude) then package_exclude
  else package_exclude ++ [out_name].

(** The arguments of a call of [copy_files]. *)
Record CopyArgs := {
  source_dir : path;
  dest_dir : path;
  exclude_patterns : list string;
  package_import_base : string;
  version : string;
  entrypoint : string
}.

(** The manifest [build] is given: the file itself, or [typst.toml] in
    the directory. *)
Definition find_manifest (f : fs) (toml_file : path) : result path :=
  if is_file f toml_file then Ok toml_file
  else if is_dir f toml_file then
    let candidate := toml_file ++ ["typst.toml"] in
    match node_at f candidate with
    | None => Raise (Exit 1)
    | Some _ => Ok candidate
    end
  else Raise (Exit 1).

(** [build] up to its call of [copy_files]: the checks, the template, and
    the arguments of the call. *)
Definition build_setup (toml_file : path) (output_dir namespace : string)
  : M CopyArgs :=
  f ← get_files;
  toml_path ← lift (find_manifest f toml_file);
  let toml_dir := parent toml_path in
  cfg ← read_toml toml_path;
  let package_entrypoint := default "main.typ" (package_entrypoint cfg) in
  if negb (truthy (package_name cfg)) || negb (truthy (package_version cfg))
  then raise (Exit 1)
  else
    let package_name := default "" (package_name cfg) in
    let package_version := default "" (package_version cfg) in
    lift (check_compiler (package_compiler cfg));;
    lift (validate_package_name package_name toml_dir);;
    let template_path := default "" (template_path cfg) in
    let template_entrypoint := default "" (template_entrypoint cfg) in
    let thumbnail_path := default "" (template_thumbnail cfg) in
    (if Git.nonempty template_path && Git.nonempty template_entrypoint then
       compile_template toml_dir package_name template_path template_entrypoint;;
       if Git.nonempty thumbnail_path then
         generate_thumbnail toml_dir package_name template_path
           template_entrypoint thumbnail_path
       else mret tt
     else mret tt);;
    let output_base := Pathlib.Path output_dir in
    let final_output_dir :=
      Pathlib.joinpath (Pathlib.joinpath output_base package_name)
        package_version in
    let out_name := Pathlib.name output_base in
    mret {| source_dir := toml_dir;
            dest_dir := locate (cwd w) final_output_dir;
            exclude_patterns := build_exclude (package_exclude cfg) out_name;
            package_import_base := namespace +:+ "/" +:+ package_name;
            version := package_version;
            entrypoint := package_entrypoint |}.

Definition build (fuel : nat) (toml_file : path) (output_dir namespace : string)
  : M unit :=
  a ← build_setup toml_file output_dir namespace;
  copy_files (source_dir a) (dest_dir a) (exclude_patterns a)
    (package_import_base a) (version a) (entrypoint a) fuel.

(** [with tempfile.TemporaryDirectory(...)]: the directory is made, the
    body runs, and the directory goes away with all that is in it however
    the body ends. *)
Definition with_tmpdir {A} (body : path → M A) : M A := λ st,
  let dir := tmpdir w in
  let st1 := {| files := <[dir := Dir]> (files st); log := log st |} in
  match body dir st1 with
  | (Running, st2) => (Running, st2)
  | (o, st2) =>
      (o, {| files := filter (λ kn, ¬ dir `prefix_of` kn.1) (files st2);
             log := log st2 |})
  end.

(** [p.rglob("typst.toml")]: what is called so below [p]. *)
Definition rglob_toml (f : fs) (p : path) : list path :=
  (List.filter
     (λ kn, bool_decide (p `prefix_of` kn.1) && negb (bool_decide (kn.1 = p))
            && String.eqb (basename kn.1) "typst.toml")
     (map_to_list f)).*1.

(** The table from hosts to their short names, with its default. *)
Definition provider_abbr (provider_host : string) : string :=
  if String.eqb provider_host "github.com" then "gh"
  else if String.eqb provider_host "gitlab.com" then "gl"
  else if String.eqb provider_host "bitbucket.org" then "bb"
  else (Py.split "." provider_host) !!! 0%nat.

Definition install (fuel : nat) (git_source : string) : M unit :=
  desc ← lift (Git.parse_git_source (urlparse w) git_source);
  with_tmpdir (λ clone_dir,
    let cmd :=
      (["clone"; "--depth"; "1"]
       ++ (if truthy (Git.git_ref desc)
           then ["--branch"; default "" (Git.git_ref desc)] else [])
       ++ [Git.repo_url_for_clone desc; str clone_dir])%list in
    f ← get_files;
    '(returncode, f') ← lift (git w cmd f);
    put_files f';;
    if negb (returncode =? 0) then raise (Exit 1)
    else
      let package_src := locate clone_dir (Git.path_in_repo desc) in
      let toml_path := package_src ++ ["typst.toml"] in
      '(toml_path, package_src) ←
        match node_at f' toml_path with
        | Some _ => mret (toml_path, package_src)
        | None =>
            let found := rglob_toml f' package_src in
            match found with
            | [] => raise (Exit 1)
            | [p] => mret (p, parent p)
            | _ =>
                let choice := prompt w in
                if (choice <? 1) || (Z.of_nat (length found) <? choice)
                then raise (Exit 1)
                else
                  let p := found !!! Z.to_nat (choice - 1) in
                  mret (p, parent p)
            end
        end;
      cfg ← read_toml toml_path;
      let entrypoint := default "main.typ" (package_entrypoint cfg) in
      if negb (truthy (package_name cfg)) || negb (truthy (package_version cfg))
      then raise (Exit 1)
      else
        let name := default "" (package_name cfg) in
        let version := default "" (package_version cfg) in
        lift (check_compiler (package_compiler cfg));;
        let namespace :=
          provider_abbr (Git.provider_host desc) +:+ "-" +:+ Git.user_or_org desc in
        let final_install_dir :=
          locate (data_dir w)
            (Pathlib.joinpath
               (Pathlib.joinpath
                  (Pathlib.joinpath (Pathlib.Path "packages") namespace) name)
               version) in
        mkdir final_install_dir;;
        copy_files package_src final_install_dir (package_exclude cfg)
          (namespace +:+ "/" +:+ name) version entrypoint fuel).

End Commands.

End Cli.

(** ** Further notions used by the properties *)

(** What may follow a version: the end of the text, or a character that
    is no digit. *)
Definition ends_number (rest : string) : Prop :=
  match rest with
  | "" => True
  | String c _ => Py.digit c = None
  end.



(** ** Sample packages *)

Module Sample.

Import FS Materialize.

Definition cr : string := String "013" "".
Definition lf : string := Transform.newline.

(** A library file with two self-imports, stored with line feeds. *)
Definition lib_texts : list string :=
  ["// helpers" +:+ lf; lf +:+ "#let twice(x) = (x, x)" +:+ lf].

Definition lib_typ : string :=
  Transform.interleave lib_texts Transform.self_import lf.

(** The same kind of file as an editor on another system stores it, with
    carriage returns. *)
Definition crlf_typ : string :=
  "// helpers" +:+ cr +:+ lf +:+ Transform.self_import +:+ cr +:+ lf.

(** A manifest with a schema line and carriage returns. *)
Definition manifest : string :=
  "#:schema ./schema.json" +:+ cr +:+ lf +:+ "[package]" +:+ cr +:+ lf
  +:+ "name = 'foo'" +:+ cr +:+ lf.

(** A manifest that ends with an empty line. *)
Definition manifest_blank_end : string :=
  "[package]" +:+ lf +:+ "name = 'foo'" +:+ lf +:+ lf.

(** A package directory [/pkg/foo] with one file in it. *)
Definition package (name data : string) : state :=
  {| files := list_to_map [(["pkg"], Dir); (["pkg"; "foo"], Dir);
                           (["pkg"; "foo"; name], File data)];
     log := [] |}.

(** That package once the destination [/out/foo/1.0.0] is made. *)
Definition ready (name data : string) : state :=
  (mkdir ["out"; "foo"; "1.0.0"] (package name data)).2.

(** The loop body on the file of that package. *)
Definition copy_one (name data : string) : outcome unit * state :=
  copy_file ["pkg"; "foo"] ["out"; "foo"; "1.0.0"] [] "preview/foo" "1.0.0"
    "main.typ" ["pkg"; "foo"] name (ready name data).

(** A package that was built before into its own [out] directory. *)
Definition built_inside : state :=
  {| files := list_to_map
       [(["pkg"], Dir); (["pkg"; "foo"], Dir);
        (["pkg"; "foo"; "main.typ"], File lib_typ);
        (["pkg"; "foo"; "docs"], Dir);
        (["pkg"; "foo"; "docs"; "guide.typ"], File lib_typ)];
     log := [] |}.

Definition build_inside (fuel : nat) (st : state) : outcome unit * state :=
  copy_files ["pkg"; "foo"] ["pkg"; "foo"; "out"; "foo"; "1.0.0"] []
    "preview/foo" "1.0.0" "main.typ" fuel
    {| files := files st; log := [] |}.

(** A manifest with the required keys only. *)
Definition manifest_of (name version : string) : Cli.Manifest :=
  {| Cli.package_name := Some name;
     Cli.package_version := Some version;
     Cli.package_exclude := [];
     Cli.package_entrypoint := None;
     Cli.package_compiler := None;
     Cli.template_path := None;
     Cli.template_entrypoint := None;
     Cli.template_thumbnail := None |}.

(** What a clone puts into the directory it is given. *)
Definition clone_into (dir : path) (repo : list (path * node)) (f : fs) : fs :=
  foldr (λ kn acc, <[dir ++ kn.1 := kn.2]> acc) f repo.

(** A world in which every manifest reads as [m], the tools succeed, and
    a clone brings the files of [repo]. *)
Definition world (m : Cli.Manifest) (repo : list (path * node)) : Cli.World :=
  {| Cli.toml_load := λ _, Ok m;
     Cli.urlparse := Urllib.urlparse;
     Cli.typst_version_stdout := Ok "typst 0.12.0 (abcdef)";
     Cli.typst := λ _ _ f, Ok (0, f);
     Cli.git := λ _ f, Ok (0, clone_into ["tmp"; "typst-build-git-1"] repo f);
     Cli.prompt := 1;
     Cli.tmpdir := ["tmp"; "typst-build-git-1"];
     Cli.data_dir := ["home"; "user"; ".local"; "share"; "typst"];
     Cli.cwd := ["work"] |}.

(** A repository with a package named [widgets] in its directory
    [tools]. *)
Definition mono_repo : list (path * node) :=
  [(["tools"], Dir);
   (["tools"; "typst.toml"], File ("[package]" +:+ lf));
   (["tools"; "main.typ"], File ("#let w = 1" +:+ lf))].

(** A machine with a temporary directory and nothing installed. *)
Definition fresh : state :=
  {| files := list_to_map [(["tmp"], Dir); (["home"], Dir)]; log := [] |}.

(** A package [foo] that holds, further down, a directory called [out]. *)
Definition with_inner_out : state :=
  {| files := list_to_map
       [(["pkg"], Dir); (["pkg"; "foo"], Dir);
        (["pkg"; "foo"; "typst.toml"], File ("[package]" +:+ lf));
        (["pkg"; "foo"; "sub"], Dir);
        (["pkg"; "foo"; "sub"; "out"], Dir);
        (["pkg"; "foo"; "sub"; "out"; "notes.txt"], File "inner")];
     log := [] |}.

(** A package [foo] in the working directory, with an earlier build in a
    directory whose name holds brackets. *)
Definition with_bracket_out : state :=
  {| files := list_to_map
       [(["work"], Dir); (["work"; "foo"], Dir);
        (["work"; "foo"; "typst.toml"], File ("[package]" +:+ lf));
        (["work"; "foo"; "dist[1]"], Dir);
        (["work"; "foo"; "dist[1]"; "old.txt"], File "earlier")];
     log := [] |}.

(** A package whose manifest names it [bar] in the directory [foo]. *)
Definition misnamed : state :=
  {| files := list_to_map
       [(["pkg"], Dir); (["pkg"; "foo"], Dir);
        (["pkg"; "foo"; "typst.toml"], File ("[package]" +:+ lf));
        (["pkg"; "foo"; "main.typ"], File ("#let w = 1" +:+ lf))];
     log := [] |}.

End Sample.

(** * Properties *)

(** ** Version requirements *)

Section SemverProperties.

Import Semver.

Lemma check_holds ver o v : check ver o v = holds ver (o, v).
Proof.
  unfold check, holds, parse_semver; simpl.
  destruct (match_semver v); reflexivity.
Qed.

Lemma req_loop_recognized_upto (n : nat) ver tokens :
  (length tokens ≤ n)%nat →
  req_loop ver tokens = forallb (holds ver) (recognized tokens).
Proof.
  revert tokens. induction n as [|n IH]; intros [|t rest] Hn;
    simpl in Hn; try reflexivity; try lia.
  cbn [req_loop recognized].
  destruct (find_prefix operators t) as [[o v]|].
  - cbn [forallb]. rewrite check_holds, (IH rest) by lia.
    destruct (holds ver (o, v)); reflexivity.
  - destruct (find_operator operators t) as [o|], rest as [|v rest'];
      try (apply IH; simpl in *; lia); try reflexivity.
    cbn [forallb]. rewrite check_holds, (IH rest') by (simpl in *; lia).
    destruct (holds ver (o, v)); reflexivity.
Qed.

Lemma req_loop_recognized ver tokens :
  req_loop ver tokens = forallb (holds ver) (recognized tokens).
Proof. apply (req_loop_recognized_upto (length tokens)). lia. Qed.

(** The comparison is the sign of the lexicographic order. *)
Lemma cmp_semver_sign (a b : version) :
  (cmp_semver a b = 0 ∧ a = b)
  ∨ (cmp_semver a b = 1 ∧ tuple_lt b a = true)
  ∨ (cmp_semver a b = -1 ∧ tuple_lt a b = true).
Proof.
  destruct a as [[a1 a2] a3], b as [[b1 b2] b3].
  unfold cmp_semver, tuple_lt.
  destruct (Z.ltb_spec a1 b1), (Z.ltb_spec b1 a1), (Z.eqb_spec a1 b1),
    (Z.eqb_spec b1 a1), (Z.ltb_spec a2 b2), (Z.ltb_spec b2 a2),
    (Z.eqb_spec a2 b2), (Z.eqb_spec b2 a2), (Z.ltb_spec a3 b3),
    (Z.ltb_spec b3 a3); simpl; try lia; auto.
  left. split; [reflexivity|]. repeat f_equal; lia.
Qed.

Lemma split_ws_operator o v :
  Py.split_ws (op_str o +:+ " " +:+ v) = op_str o :: Py.split_ws v.
Proof. destruct o; reflexivity. Qed.

Lemma find_prefix_operator o :
  ∃ o', find_prefix operators (op_str o) = Some (o', "").
Proof. destruct o; eexists; reflexivity. Qed.

(** C1. A token that is just an operator starts with that operator, so the
    prefix rule takes it with an empty operand, which does not parse: a
    requirement that begins with an operator, a space and anything at all
    matches no version.  In particular [> 1.2.3] does not match 2.0.0,
    which [>1.2.3] matches. *)
Theorem separated_operator_rejected :
  (∀ o v ver, matches_version_req (op_str o +:+ " " +:+ v) ver = false)
  ∧ matches_version_req "> 1.2.3" (2, 0, 0) = false
  ∧ matches_version_req ">1.2.3" (2, 0, 0) = true.
Proof.
  repeat split; try reflexivity.
  intros o v ver. unfold matches_version_req.
  rewrite split_ws_operator. cbn [req_loop].
  destruct (find_prefix_operator o) as [o' ->].
  reflexivity.
Qed.

End SemverProperties.

(** ** Splitting and joining *)

Section PyFacts.

Lemma append_nil_l (s : string) : "" +:+ s = s.
Proof. reflexivity. Qed.

Lemma append_cons c (s t : string) : String c s +:+ t = String c (s +:+ t).
Proof. reflexivity. Qed.

Lemma append_nil_r (s : string) : s +:+ "" = s.
Proof.
  induction s as [|x s IH]; [reflexivity|]. by rewrite append_cons, IH.
Qed.

Lemma append_assoc (a b c : string) : (a +:+ b) +:+ c = a +:+ b +:+ c.
Proof.
  induction a as [|x a IH]; [reflexivity|]. by rewrite !append_cons, IH.
Qed.

Lemma cons_head_elem c l x :
  x ∈ Py.cons_head c l →
  (∃ t, x = String c t ∧ (t = "" ∧ l = [] ∨ head l = Some t)) ∨ x ∈ tail l.
Proof.
  destruct l as [|t ts]; simpl; intros H.
  - apply list_elem_of_singleton in H. left. eauto.
  - apply elem_of_cons in H as [->|H]; [left|right]; eauto.
Qed.

(** No segment of a split contains the separator. *)
Lemma split_no_sep sep s x :
  x ∈ Py.split sep s → Py.contains_char sep x = false.
Proof.
  revert x. induction s as [|c s IH]; intros x; simpl.
  - intros ->%list_elem_of_singleton. reflexivity.
  - destruct (Ascii.eqb_spec c sep) as [->|Hne].
    + intros [->|H]%elem_of_cons; [reflexivity|auto].
    + intros [(t & -> & Ht)|H]%cons_head_elem.
      * simpl. destruct (Ascii.eqb_spec sep c); [congruence|]. simpl.
        destruct Ht as [[-> _]|Ht]; [reflexivity|].
        apply IH. destruct (Py.split sep s); simplify_eq/=.
        apply elem_of_cons; auto.
      * apply IH. destruct (Py.split sep s); simpl in *; [done|].
        apply elem_of_cons; auto.
Qed.

Lemma split_sep_free sep x :
  Py.contains_char sep x = false → Py.split sep x = [x].
Proof.
  induction x as [|c x IH]; simpl; [done|].
  rewrite (Ascii.eqb_sym c sep).
  destruct (Ascii.eqb sep c); simpl; [discriminate|].
  intros H. rewrite IH by done. reflexivity.
Qed.

Lemma split_app sep x t :
  Py.contains_char sep x = false →
  Py.split sep (x +:+ String sep t) = x :: Py.split sep t.
Proof.
  induction x as [|c x IH]; rewrite ?append_cons, ?append_nil_l; simpl.
  - rewrite Ascii.eqb_refl. done.
  - rewrite (Ascii.eqb_sym c sep).
    destruct (Ascii.eqb sep c); simpl; [discriminate|].
    intros H. rewrite IH by done. reflexivity.
Qed.

(** Splitting a joined list of separator-free strings gives the list. *)
Lemma split_join sep l :
  l ≠ [] → Forall (λ x, Py.contains_char sep x = false) l →
  Py.split sep (Py.join (String sep "") l) = l.
Proof.
  intros Hne Hl. induction Hl as [|x l Hx Hl IH]; [done|].
  destruct l as [|y l].
  - simpl. by apply split_sep_free.
  - change (Py.join (String sep "") (x :: y :: l))
      with (x +:+ String sep (Py.join (String sep "") (y :: l))).
    rewrite split_app by done. f_equal. by apply IH.
Qed.

(** [split(sep, 1)] cuts where [split(sep)] makes its first cut. *)
Lemma split1_split sep s :
  (Py.split1 sep s = [s] ∧ Py.split sep s = [s])
  ∨ (∃ a b, Py.split1 sep s = [a; b] ∧ Py.split sep s = a :: Py.split sep b).
Proof.
  induction s as [|c s IH]; simpl; [by left|].
  destruct (Ascii.eqb c sep); [right; eauto|].
  destruct IH as [[-> ->]|(a & b & -> & ->)]; [left|right]; simpl; eauto.
Qed.

End PyFacts.

(** ** Git sources *)

(** Closes a case in which the function at hand returns nothing. *)
Ltac no_descriptor := cbn; intros ?; discriminate.

Section GitProperties.

Import Pathlib Git.

Lemma hosts_range a h : hosts !! a = Some h → h ∈ known_hosts.
Proof.
  unfold hosts. intros H%elem_of_list_to_map_2.
  repeat (apply elem_of_cons in H as [H|H];
          [injection H as -> ->; unfold known_hosts; set_solver|]).
  by apply elem_of_nil in H.
Qed.

Lemma nonempty_true s : nonempty s = true ↔ s ≠ "".
Proof.
  unfold nonempty. destruct (String.eqb_spec s ""); simpl; split; congruence.
Qed.

Lemma known_host_nonempty h : h ∈ known_hosts → nonempty h = true.
Proof.
  unfold known_hosts. intros H.
  repeat (apply elem_of_cons in H as [->|H]; [reflexivity|]).
  by apply elem_of_nil in H.
Qed.

(** The host of a clone URL, read back by the reference parser. *)
Lemma clone_url_netloc host user repo :
  host ∈ known_hosts →
  ∃ u, Urllib.urlparse (clone_url host user repo) = Ok u ∧ netloc u = host.
Proof.
  unfold known_hosts. intros H. eexists. split; [reflexivity|].
  repeat (apply elem_of_cons in H as [->|H]; [vm_compute; reflexivity|]).
  by apply elem_of_nil in H.
Qed.

Lemma path_parts_from s x : x ∈ parts (Path s) → x ∈ Py.split "/" s.
Proof. simpl. by intros [_ ?]%list_elem_of_filter. Qed.

Lemma path_of_joined_parts l x :
  Forall (λ y, Py.contains_char "/" y = false) l →
  x ∈ parts (Path (Py.join "/" l)) → x ∈ l.
Proof.
  intros Hl [[Hx _] H]%list_elem_of_filter.
  destruct l as [|y l]; [apply list_elem_of_singleton in H; done|].
  by rewrite split_join in H.
Qed.

(** What the alias form returns. *)
Lemma alias_form_inv s d :
  alias_form s = Some d →
  git_ref d = None
  ∧ provider_host d ∈ known_hosts
  ∧ (∃ repo, repo_url_for_clone d = clone_url (provider_host d) (user_or_org d) repo)
  ∧ (∀ x, x ∈ parts (path_in_repo d) → x ∈ Py.split "/" s).
Proof.
  unfold alias_form.
  pose proof (split_no_sep "/" s) as Hfree.
  destruct (Py.split "/" s) as [|p0 [|user [|x rest]]] eqn:E;
    try (no_descriptor).
  rewrite bool_decide_true by (simpl; lia).
  change ((p0 :: user :: x :: rest) !!! 0%nat) with p0.
  change ((p0 :: user :: x :: rest) !!! 1%nat) with user.
  change (drop 2 (p0 :: user :: x :: rest)) with (x :: rest).
  destruct (hosts !! Py.lower p0) as [host|] eqn:Hhost; [|no_descriptor].
  change (default "" (Some host)) with host.
  destruct (nonempty host && nonempty user && nonempty (Py.join "/" (x :: rest)));
    [|no_descriptor].
  assert (Py.split "/" (Py.join "/" (x :: rest)) = x :: rest) as Hsplit.
  { apply split_join; [done|]. apply Forall_forall. intros y Hy.
    apply Hfree. do 2 (apply elem_of_cons; right). done. }
  destruct (split1_split "/" (Py.join "/" (x :: rest)))
    as [[-> _]|(a & b & -> & Hab)]; cbn [app take].
  - destruct (nonempty (Py.join "/" (x :: rest))); [|no_descriptor].
    intros [= <-]. simpl. repeat split; eauto using hosts_range.
    intros y Hy. by apply elem_of_nil in Hy.
  - destruct (nonempty a); [|no_descriptor].
    intros [= <-]. cbn [git_ref provider_host user_or_org path_in_repo
                        repo_url_for_clone].
    repeat split; eauto using hosts_range.
    intros y Hy%path_parts_from.
    rewrite Hsplit in Hab. injection Hab as -> ->.
    do 3 (apply elem_of_cons; right). done.
Qed.

Variable up : string → result ParseResult.

Lemma segs_parts (p : string) n x :
  x ∈ parts (Path (Py.join "/" (drop n (filter (λ s, s ≠ "") (Py.split "/" p))))) →
  x ∈ Py.split "/" p.
Proof.
  intros H. apply path_of_joined_parts in H.
  - apply subseteq_drop in H. by apply list_elem_of_filter in H as [_ ?].
  - apply Forall_drop, Forall_forall. intros y [_ Hy]%list_elem_of_filter.
    by apply split_no_sep in Hy.
Qed.

Lemma url_form_inv s d :
  url_form up s = Ok d →
  ∃ u, up s = Ok u
       ∧ provider_host d ∈ known_hosts
       ∧ (∃ repo, repo_url_for_clone d
                  = clone_url (provider_host d) (user_or_org d) repo)
       ∧ (∀ x, x ∈ parts (path_in_repo d) → x ∈ Py.split "/" (path u)).
Proof.
  unfold url_form. destruct (up s) as [u|e]; [|no_descriptor].
  cbn [mbind result_bind].
  destruct (negb _ || negb _); [no_descriptor|].
  set (host := if Py.startswith _ _ then _ else _).
  set (segs := filter _ _).
  pose proof (segs_parts (path u)) as Hsegs. fold segs in Hsegs.
  clearbody host segs.
  intros H. exists u. split; [done|]. revert H.
  destruct (String.eqb_spec host "github.com") as [->|_];
    [|destruct (String.eqb_spec host "gitlab.com") as [->|_];
      [|destruct (String.eqb_spec host "bitbucket.org") as [->|_]]];
    cbn [andb String.eqb Ascii.eqb Bool.eqb];
    repeat match goal with
      | |- context [bool_decide ?P] => destruct (bool_decide P)
      | |- context [is_tree_or_blob ?x] => destruct (is_tree_or_blob x)
      | |- context [String.eqb ?a ?b] => destruct (String.eqb a b)
      end;
    cbn [andb]; try no_descriptor;
    intros [= <-];
    cbn [provider_host repo_url_for_clone user_or_org path_in_repo];
    (split; [unfold known_hosts; set_solver|]);
    (split; [eauto|]);
    intros x Hx;
    first [ by eapply Hsegs | by vm_compute in Hx; apply elem_of_nil in Hx ].
Qed.

Lemma parse_git_source_inv s d :
  parse_git_source up s = Ok d →
  provider_host d ∈ known_hosts
  ∧ (∃ repo, repo_url_for_clone d
             = clone_url (provider_host d) (user_or_org d) repo)
  ∧ (∀ x, x ∈ parts (path_in_repo d) →
          x ∈ Py.split "/" s
          ∨ ∃ u, up s = Ok u ∧ x ∈ Py.split "/" (path u)).
Proof.
  unfold parse_git_source.
  destruct (alias_form s) as [d'|] eqn:Ha.
  - intros [= ->]. apply alias_form_inv in Ha as (_ & ? & ? & ?). eauto.
  - intros (u & ? & ? & ? & ?)%url_form_inv. eauto 10.
Qed.

(** C2, as amended.  When resolution succeeds, in the alias form and in
    the URL form alike, the clone URL is
    [https://<provider host>/<owner>/<repo>.git], so the host read back
    from it is the provider host; and every component of the path in the
    repository is a segment of the input (alias form) or of the path the
    URL parser reported (URL form): the path holds a [..] component only
    where the input had one. *)
Theorem resolved_descriptor_invariant s d :
  parse_git_source up s = Ok d →
  (∃ repo, repo_url_for_clone d
           = "https://" +:+ provider_host d +:+ "/" +:+ user_or_org d
             +:+ "/" +:+ repo +:+ ".git")
  ∧ (∃ u, Urllib.urlparse (repo_url_for_clone d) = Ok u
          ∧ netloc u = provider_host d)
  ∧ (".." ∈ parts (path_in_repo d) →
     ".." ∈ Py.split "/" s
     ∨ ∃ u, up s = Ok u ∧ ".." ∈ Py.split "/" (path u)).
Proof.
  intros (Hhost & [repo Hurl] & Hparts)%parse_git_source_inv.
  split; [by exists repo|]. split; [|by apply Hparts].
  rewrite Hurl. by apply clone_url_netloc.
Qed.

Lemma in_alias_form_resolves s :
  in_alias_form s = true →
  ∃ d, alias_form s = Some d ∧ git_ref d = None.
Proof.
  unfold in_alias_form, alias_form.
  pose proof (split_no_sep "/" s) as Hfree.
  destruct (Py.split "/" s) as [|p0 [|user [|x rest]]] eqn:E;
    try (cbn; intros ?; discriminate).
  rewrite !bool_decide_true by (simpl; lia).
  change ((p0 :: user :: x :: rest) !!! 0%nat) with p0.
  change ((p0 :: user :: x :: rest) !!! 1%nat) with user.
  change ((p0 :: user :: x :: rest) !!! 2%nat) with x.
  change (drop 2 (p0 :: user :: x :: rest)) with (x :: rest).
  destruct (hosts !! Py.lower p0) as [host|] eqn:Hhost;
    [|rewrite bool_decide_false by (by intros [? ?]); no_descriptor].
  rewrite bool_decide_true by eauto.
  change (default "" (Some host)) with host.
  rewrite (known_host_nonempty host) by eauto using hosts_range.
  cbn [andb]. intros [Hu Hx]%andb_prop. rewrite Hu. cbn [andb].
  assert (Py.split "/" (Py.join "/" (x :: rest)) = x :: rest) as Hsplit.
  { apply split_join; [done|]. apply Forall_forall. intros y Hy.
    apply Hfree. do 2 (apply elem_of_cons; right). done. }
  assert (nonempty (Py.join "/" (x :: rest)) = true) as Hj.
  { apply nonempty_true. intros Hj. rewrite Hj in Hsplit.
    injection Hsplit as <- _. by apply nonempty_true in Hx. }
  rewrite Hj.
  destruct (split1_split "/" (Py.join "/" (x :: rest)))
    as [[-> _]|(a & b & -> & Hab)]; cbn [app take].
  - rewrite Hj. eauto.
  - assert (a = x) as -> by congruence.
    rewrite Hx. eauto.
Qed.

(** C8.  The source [gh/acme/widgets/sub/dir] resolves to the clone URL
    [https://github.com/acme/widgets.git], no ref and the path
    [sub/dir]; and every input in alias form resolves, to a descriptor
    whose ref is unset. *)
Theorem alias_form_has_no_ref :
  parse_git_source up "gh/acme/widgets/sub/dir"
  = Ok {| repo_url_for_clone := "https://github.com/acme/widgets.git";
          git_ref := None;
          path_in_repo := {| root := ""; parts := ["sub"; "dir"] |};
          provider_host := "github.com";
          user_or_org := "acme" |}
  ∧ (∀ s, in_alias_form s = true →
          ∃ d, parse_git_source up s = Ok d ∧ git_ref d = None).
Proof.
  split; [reflexivity|].
  intros s (d & Hd & Href)%in_alias_form_resolves.
  exists d. unfold parse_git_source. by rewrite Hd.
Qed.

End GitProperties.

(** The invariant of C2 at [gh/acme/widgets/sub/dir]. *)
Lemma resolved_descriptor_invariant_witness :
  ∃ d, Git.parse_git_source Urllib.urlparse "gh/acme/widgets/sub/dir" = Ok d
       ∧ (∃ repo, Git.repo_url_for_clone d
                  = "https://" +:+ Git.provider_host d +:+ "/"
                    +:+ Git.user_or_org d +:+ "/" +:+ repo +:+ ".git")
       ∧ (∃ u, Urllib.urlparse (Git.repo_url_for_clone d) = Ok u
               ∧ Git.netloc u = Git.provider_host d)
       ∧ (".." ∈ Pathlib.parts (Git.path_in_repo d) →
          ".." ∈ Py.split "/" "gh/acme/widgets/sub/dir"
          ∨ ∃ u, Urllib.urlparse "gh/acme/widgets/sub/dir" = Ok u
                 ∧ ".." ∈ Py.split "/" (Git.path u)).
Proof.
  eexists. split; [reflexivity|].
  apply (resolved_descriptor_invariant Urllib.urlparse
           "gh/acme/widgets/sub/dir").
  reflexivity.
Defined.

(** C2 as stated fails: an alias-form input with a [..] segment resolves,
    and the [..] is a component of the path in the repository. *)
Lemma parent_component_survives :
  ∃ d, Git.parse_git_source Urllib.urlparse "gh/acme/widgets/../etc" = Ok d
       ∧ ".." ∈ Pathlib.parts (Git.path_in_repo d).
Proof.
  eexists. split; [reflexivity|]. vm_compute. apply elem_of_cons. by left.
Qed.

(** C8 at [gl/team/tool]. *)
Lemma alias_form_has_no_ref_witness :
  Git.in_alias_form "gl/team/tool" = true
  ∧ ∃ d, Git.parse_git_source Urllib.urlparse "gl/team/tool" = Ok d
         ∧ Git.git_ref d = None.
Proof.
  split; [reflexivity|].
  apply (proj2 (alias_form_has_no_ref Urllib.urlparse)). reflexivity.
Defined.

(** ** Exclusion rules *)

Section ExcludeProperties.

Import FS Fnmatch Exclude.

Lemma literal_cons c pat :
  literal (String c pat) →
  Ascii.eqb c "*" = false ∧ Ascii.eqb c "?" = false ∧ Ascii.eqb c "[" = false
  ∧ literal pat.
Proof.
  unfold literal. cbn [Py.contains_char].
  rewrite (Ascii.eqb_sym "*" c), (Ascii.eqb_sym "?" c), (Ascii.eqb_sym "[" c).
  rewrite !orb_false_iff. tauto.
Qed.

Lemma has_glob_chars_literal pat : has_glob_chars pat = false → literal pat.
Proof.
  unfold has_glob_chars, literal. cbn [existsb]. rewrite !orb_false_iff. tauto.
Qed.

Lemma translate_literal pat fuel :
  literal pat → (String.length pat ≤ fuel)%nat →
  translate_go fuel pat = Lit <$> list_ascii_of_string pat.
Proof.
  revert fuel. induction pat as [|c pat IH]; intros [|fuel] Hlit Hlen;
    cbn [translate_go String.length list_ascii_of_string fmap list_fmap] in *;
    try reflexivity; try lia.
  apply literal_cons in Hlit as (-> & -> & -> & Hlit).
  f_equal. apply IH; [done|lia].
Qed.

Lemma match_literal pat name :
  match_items (Lit <$> list_ascii_of_string pat) name = String.eqb name pat.
Proof.
  revert name. induction pat as [|c pat IH]; intros [|d name];
    cbn [match_items String.eqb list_ascii_of_string fmap list_fmap item_ok];
    try reflexivity.
  by rewrite IH.
Qed.

(** A pattern without wildcard characters matches its own text only. *)
Lemma fnmatch_literal name pat :
  literal pat → fnmatch name pat = String.eqb name pat.
Proof.
  intros Hlit. unfold fnmatch, translate.
  rewrite translate_literal by (done || lia). apply match_literal.
Qed.

Lemma startswith_iff s p :
  Py.startswith s p = true ↔ ∃ rest, s = p +:+ rest.
Proof.
  unfold Py.startswith. revert s.
  induction p as [|c p IH]; intros s.
  - destruct s; simpl; split; eauto.
  - destruct s as [|d s]; simpl.
    + split; [done|]. intros [rest H]. discriminate.
    + destruct (ascii_dec c d) as [->|Hne].
      * rewrite IH. split; intros [rest H]; exists rest.
        -- by rewrite append_cons, H.
        -- rewrite append_cons in H. congruence.
      * split; [done|]. intros [rest H]. rewrite append_cons in H. congruence.
Qed.

(** C3, as amended.  For a pattern without glob characters, a path is
    excluded exactly when its relative path is the pattern itself, or when
    the pattern ends with a separator or names an existing directory
    under the source root, and the relative path is the pattern without
    its trailing separators or lies beneath it. *)
Theorem literal_pattern_excludes (f : fs) base_dir file_path pattern :
  has_glob_chars pattern = false →
  let rel_path := os_path_relpath file_path base_dir in
  let p := strip_sep pattern in
  should_exclude f file_path [pattern] base_dir = true
  ↔ rel_path = pattern
    ∨ (Py.endswith pattern "/" = true
       ∨ os_path_isdir f (os_path_join (str base_dir) pattern) = true)
      ∧ (rel_path = p ∨ ∃ rest, rel_path = p +:+ "/" +:+ rest).
Proof.
  intros Hglob rel_path p.
  unfold should_exclude, pattern_excludes. cbn [existsb]. fold rel_path p.
  rewrite orb_false_r, Hglob.
  rewrite fnmatch_literal by by apply has_glob_chars_literal.
  cbn [negb andb]. clearbody rel_path p.
  destruct (String.eqb_spec rel_path pattern) as [Heq|Hne]; [tauto|].
  destruct (Py.endswith pattern "/" || os_path_isdir f _) eqn:Hdir.
  - rewrite orb_true_iff, startswith_iff.
    setoid_rewrite append_assoc.
    apply orb_true_iff in Hdir. rewrite String.eqb_eq.
    split; [intros H; by right|]. by intros [?|[_ ?]].
  - apply orb_false_iff in Hdir as [-> ->].
    split; [done|]. intros [?|[[?|?] _]]; done.
Qed.

End ExcludeProperties.

(** C3 as amended, for the pattern [docs] and a file beneath the directory
    of that name. *)
Lemma literal_pattern_excludes_witness :
  let f : FS.fs :=
    list_to_map [(["src"], FS.Dir); (["src"; "docs"], FS.Dir);
                 (["src"; "docs"; "a.md"], FS.File "text")] in
  Exclude.should_exclude f ["src"; "docs"; "a.md"] ["docs"] ["src"] = true.
Proof.
  intros f.
  apply (literal_pattern_excludes f ["src"] ["src"; "docs"; "a.md"] "docs");
    [reflexivity|].
  right. split; [right; vm_compute; reflexivity|].
  right. exists "a.md". reflexivity.
Defined.

(** C3 as stated fails: the pattern [build/] has no glob characters and
    names no existing directory, [build] being a regular file, and the
    relative path [build] does not match it as a shell pattern; yet the
    file is excluded. *)
Lemma trailing_separator_without_directory :
  let f : FS.fs :=
    list_to_map [(["src"], FS.Dir); (["src"; "build"], FS.File "text")] in
  Exclude.has_glob_chars "build/" = false
  ∧ FS.os_path_isdir f (FS.os_path_join (FS.str ["src"]) "build") = false
  ∧ FS.os_path_isdir f (FS.os_path_join (FS.str ["src"]) "build/") = false
  ∧ Fnmatch.fnmatch (FS.os_path_relpath ["src"; "build"] ["src"]) "build/" = false
  ∧ Exclude.should_exclude f ["src"; "build"] ["build/"] ["src"] = true.
Proof. vm_compute. done. Qed.

(** ** The manifest filter and the import rewriter *)

Section TransformProperties.

Import FS Transform.

Lemma cons_head_cases c l :
  (l = [] ∧ Py.cons_head c l = [String c ""])
  ∨ (∃ t ts, l = t :: ts ∧ Py.cons_head c l = String c t :: ts).
Proof. destruct l; [left|right]; eauto. Qed.

Lemma no_break_cons c line :
  Py.islinebreak c = false → no_break line → no_break (String c line).
Proof.
  intros Hc Hl d Hd. cbn [Py.contains_char]. rewrite (Hl d Hd), orb_false_r.
  destruct (Ascii.eqb_spec d c) as [->|]; congruence.
Qed.

Lemma splitlines_no_break_upto (n : nat) s :
  (String.length s ≤ n)%nat → Forall no_break (Py.splitlines s).
Proof.
  revert s. induction n as [|n IH]; intros [|c s] Hn; simpl in Hn;
    try lia; try (by constructor).
  cbn [Py.splitlines].
  destruct (Py.islinebreak c) eqn:Hc.
  - destruct s as [|d s]; [repeat constructor; by intros ?|].
    destruct (_ && _); constructor; try (by intros ?);
      apply IH; simpl in *; lia.
  - pose proof (IH s ltac:(lia)) as Hs.
    destruct (cons_head_cases c (Py.splitlines s))
      as [[_ ->]|(t & ts & E & ->)].
    + repeat constructor. apply no_break_cons; [done|]. by intros ?.
    + rewrite E in Hs. apply Forall_cons in Hs as [Ht Hts].
      constructor; [|done]. by apply no_break_cons.
Qed.

(** No line of [splitlines] holds a line boundary. *)
Lemma splitlines_no_break s : Forall no_break (Py.splitlines s).
Proof. by apply (splitlines_no_break_upto (String.length s)). Qed.

Lemma endswith_cons c s d :
  s ≠ "" → Py.endswith (String c s) (String d "") = Py.endswith s (String d "").
Proof.
  intros Hs. destruct s as [|a s]; [done|].
  change (Py.endswith (String c (String a s)) (String d ""))
    with (if Ascii.eqb c d && false then true
          else Py.endswith (String a s) (String d "")).
  by rewrite andb_false_r.
Qed.

Lemma endswith_app a b d :
  b ≠ "" → Py.endswith (a +:+ b) (String d "") = Py.endswith b (String d "").
Proof.
  intros Hb. induction a as [|c a IH]; [done|].
  rewrite append_cons, endswith_cons; [done|].
  destruct a; [done|]. by rewrite append_cons.
Qed.

Lemma endswith_absent s d :
  Py.contains_char d s = false → Py.endswith s (String d "") = false.
Proof.
  induction s as [|c s IH]; [done|].
  cbn [Py.contains_char]. intros [Hc Hs]%orb_false_iff.
  destruct s as [|c' s].
  - cbn. rewrite Ascii.eqb_sym, Hc. done.
  - rewrite endswith_cons by done. by apply IH.
Qed.

Lemma no_break_newline line : no_break line → Py.contains_char "010" line = false.
Proof. intros H. by apply H. Qed.

(** When a text joined from lines ends with a newline. *)
Lemma join_ends_with_newline (kept : list string) :
  Forall no_break kept →
  Py.endswith (Py.join newline kept) newline = true
  ↔ ∃ init, init ≠ [] ∧ kept = init ++ [""].
Proof.
  unfold newline. induction 1 as [|x kept Hx Hkept IH].
  - cbn. split; [done|]. intros (init & _ & H). by destruct init.
  - destruct kept as [|y kept].
    + cbn [Py.join String.concat].
      rewrite endswith_absent by by apply no_break_newline.
      split; [done|]. intros (init & Hne & H).
      destruct init as [|? [|]]; simplify_eq.
    + change (Py.join (String "010" "") (x :: y :: kept))
        with (x +:+ String "010" (Py.join (String "010" "") (y :: kept))).
      rewrite endswith_app by done.
      destruct (Py.join (String "010" "") (y :: kept)) as [|c j] eqn:Ej.
      * split; [intros _|done].
        exists [x]. split; [done|].
        destruct kept as [|z kept]; cbn in Ej.
        -- by subst.
        -- destruct y; discriminate.
      * rewrite endswith_cons, IH by done.
        split.
        -- intros (init & Hne & ->). exists (x :: init). done.
        -- intros (init & Hne & H).
           destruct init as [|x' init]; [done|]. simplify_eq/=.
           exists init. split; [|done].
           intros ->. simplify_eq/=.
Qed.

Lemma prefix_nil_r p : p ≠ "" → String.prefix p "" = false.
Proof. by destruct p. Qed.

(** A prefix of a concatenation lies within the first part or runs over
    into the second. *)
Lemma prefix_app_inv p t next :
  String.prefix p (t +:+ next) = true →
  String.prefix p t = true
  ∨ ∃ r, p = t +:+ r ∧ r ≠ "" ∧ String.prefix r next = true.
Proof.
  revert p. induction t as [|d t IH]; intros [|c p] H;
    try (left; reflexivity).
  - right. exists (String c p). done.
  - rewrite append_cons in H. cbn in H. cbn.
    destruct (ascii_dec c d) as [->|]; [|done].
    apply IH in H as [H|(r & -> & Hr & H)]; [by left|right].
    exists r. by rewrite append_cons.
Qed.

Lemma strip_none p s : String.prefix p s = false → strip p s = None.
Proof.
  revert s. induction p as [|c p IH]; intros [|d s]; cbn; try done.
  destruct (ascii_dec c d) as [->|Hne].
  - rewrite Ascii.eqb_refl. apply IH.
  - intros _. by apply Ascii.eqb_neq in Hne as ->.
Qed.

Lemma contains_char_app_cons c a b :
  Py.contains_char c (a +:+ String c b) = true.
Proof.
  induction a as [|d a IH].
  - change ("" +:+ String c b) with (String c b).
    cbn [Py.contains_char]. by rewrite Ascii.eqb_refl.
  - rewrite append_cons. cbn [Py.contains_char]. by rewrite IH, orb_true_r.
Qed.

Lemma import_not_across t next :
  t ≠ "" → String.prefix "#import" t = false → opens_import next →
  String.prefix "#import" (t +:+ next) = false.
Proof.
  intros Ht Hp Hnext.
  destruct (String.prefix "#import" (t +:+ next)) eqn:E; [|done].
  apply prefix_app_inv in E as [E|(r & Hr & Hne & E)]; [congruence|].
  destruct Hnext as [->|[n ->]]; [by rewrite prefix_nil_r in E|].
  destruct r as [|c r]; [done|]. cbn in E.
  destruct (ascii_dec c "#") as [->|]; [|done].
  destruct t as [|d t]; [done|].
  rewrite append_cons in Hr. injection Hr as _ Hr.
  pose proof (contains_char_app_cons "#" t r) as Hc.
  rewrite <- Hr in Hc. discriminate.
Qed.

Section Rewriter.

Variable entrypoint_name full_package_import : string.

Abbreviation sub_from := (sub_from entrypoint_name full_package_import).

Lemma sub_from_skip m rest :
  sub_from (String.length m) (m +:+ rest) = sub_from 0 rest.
Proof. induction m as [|c m IH]; [by destruct rest|]. apply IH. Qed.

(** Quiet text is copied as it is. *)
Lemma sub_from_quiet t next :
  quiet t = true → opens_import next →
  sub_from 0 (t +:+ next) = t +:+ sub_from 0 next.
Proof.
  unfold quiet. rewrite negb_true_iff.
  induction t as [|c t IH]; [done|].
  cbn [Py.contains]. intros [Hp Hc]%orb_false_iff Hnext.
  assert (match_at entrypoint_name (String c t +:+ next) = None) as Hm.
  { unfold match_at. by rewrite strip_none by by apply import_not_across. }
  rewrite !append_cons in *. cbn [Transform.sub_from]. rewrite Hm.
  f_equal. by apply IH.
Qed.

End Rewriter.

Lemma length_append (a b : string) :
  String.length (a +:+ b) = (String.length a + String.length b)%nat.
Proof. induction a as [|c a IH]; [done|]. rewrite append_cons. cbn. by rewrite IH. Qed.

(** One occurrence of the example's self-import is replaced, and the
    scan goes on behind it. *)
Lemma sub_from_self_import rest :
  sub_from "main.typ" "@preview/foo:1.0.0" 0 (self_import +:+ rest)
  = package_import +:+ sub_from "main.typ" "@preview/foo:1.0.0" 0 rest.
Proof.
  assert (match_at "main.typ" (self_import +:+ rest)
          = Some ("", ": *" +:+ rest)) as Hm by reflexivity.
  change (self_import +:+ rest)
    with (String "#" (("import " +:+ quote +:+ "../../main.typ" +:+ quote +:+ ": *") +:+ rest)) in *.
  cbn [Transform.sub_from]. rewrite Hm.
  replace (String.length _ - String.length (": *" +:+ rest) - 1)%nat
    with (String.length ("import " +:+ quote +:+ "../../main.typ" +:+ quote)).
  2:{ cbn [String.length]. rewrite !length_append. cbn. lia. }
  change (("import " +:+ quote +:+ "../../main.typ" +:+ quote +:+ ": *") +:+ rest)
    with (("import " +:+ quote +:+ "../../main.typ" +:+ quote) +:+ (": *" +:+ rest)).
  rewrite sub_from_skip. reflexivity.
Qed.

(** Every occurrence is replaced and the quiet text around them stays. *)
Lemma rewrite_interleaved texts tail :
  Forall (λ t, quiet t = true) texts → quiet tail = true →
  rewrite_imports "main.typ" "@preview/foo:1.0.0"
    (interleave texts self_import tail)
  = interleave texts package_import tail.
Proof.
  unfold rewrite_imports. intros Htexts Htail.
  induction Htexts as [|t texts Ht _ IH].
  - cbn [interleave foldr]. rewrite <- (append_nil_r tail) at 1.
    rewrite sub_from_quiet by (done || by left). by rewrite append_nil_r.
  - change (interleave (t :: texts) self_import tail)
      with (t +:+ self_import +:+ interleave texts self_import tail).
    change (interleave (t :: texts) package_import tail)
      with (t +:+ package_import +:+ interleave texts package_import tail).
    rewrite sub_from_quiet; [|done|right; by eexists].
    by rewrite sub_from_self_import, IH.
Qed.

End TransformProperties.

(** ** Materialization *)

Section MaterializeProperties.

Import FS Materialize.

Lemma relative_to_app p base rel : relative_to p base = Some rel → p = base ++ rel.
Proof.
  revert p. induction base as [|b base IH]; intros [|x p]; cbn;
    try (by intros [= ->]).
  destruct (String.eqb_spec b x) as [->|]; [|done].
  intros ->%IH. done.
Qed.

Lemma prefix_snoc_cases (dest top : path) name :
  dest `prefix_of` top ++ [name] →
  dest `prefix_of` top ∨ dest = top ++ [name].
Proof.
  intros [k Hk].
  destruct k as [|x k _] using rev_ind.
  - right. by rewrite app_nil_r in Hk.
  - left. rewrite app_assoc in Hk. apply app_inj_tail in Hk as [-> _].
    by apply prefix_app_r.
Qed.

Lemma node_at_insert_ne (f : fs) p q n :
  p ≠ q → node_at (<[p := n]> f) q = node_at f q.
Proof. intros Hne. destruct q; [done|]. cbn. by rewrite lookup_insert_ne. Qed.

Lemma is_dir_lookup (f : fs) q : q ≠ [] → is_dir f q = true → f !! q = Some Dir.
Proof.
  unfold is_dir. destruct q; [done|]. cbn.
  intros _. destruct (f !! _) as [[]|]; done.
Qed.

Lemma mkdir_from_cons (f : fs) cur c rest :
  mkdir_from f cur (c :: rest)
  = match f !! (cur ++ [c]) with
    | Some Dir => mkdir_from f (cur ++ [c]) rest
    | Some (File _) => Raise (OSError "FileExistsError")
    | None => mkdir_from (<[cur ++ [c] := Dir]> f) (cur ++ [c]) rest
    end.
Proof. reflexivity. Qed.

(** What [mkdir_from] does: nothing that exists is replaced, what appears
    is a directory on the way from [cur] to the target, and all of that
    way exists in the end. *)
Lemma mkdir_from_spec (f : fs) cur rest f' :
  mkdir_from f cur rest = Ok f' →
  (∀ k n, f !! k = Some n → f' !! k = Some n)
  ∧ (∀ k, f !! k = None → f' !! k ≠ None →
          f' !! k = Some Dir ∧ ∃ r, r ≠ [] ∧ r `prefix_of` rest ∧ k = cur ++ r)
  ∧ (∀ r, r ≠ [] → r `prefix_of` rest → f' !! (cur ++ r) = Some Dir).
Proof.
  revert f cur. induction rest as [|c rest IH]; intros f cur.
  - intros [= <-]. split; [done|]. split; [done|].
    intros r Hr Hp. apply prefix_nil_inv in Hp. done.
  - assert (∀ f1, (f1 !! (cur ++ [c]) = Some Dir) →
              (∀ k n, f !! k = Some n → f1 !! k = Some n) →
              (∀ k, f !! k = None → f1 !! k ≠ None → k = cur ++ [c]) →
              mkdir_from f1 (cur ++ [c]) rest = Ok f' →
              (∀ k n, f !! k = Some n → f' !! k = Some n)
              ∧ (∀ k, f !! k = None → f' !! k ≠ None →
                   f' !! k = Some Dir
                   ∧ ∃ r, r ≠ [] ∧ r `prefix_of` c :: rest ∧ k = cur ++ r)
              ∧ (∀ r, r ≠ [] → r `prefix_of` c :: rest →
                   f' !! (cur ++ r) = Some Dir)) as Hstep.
    { intros f1 Hdir Hkeep Hnew (H1 & H2 & H3)%IH. repeat split.
      - eauto.
      - destruct (f1 !! k) as [n|] eqn:E1.
        + assert (k = cur ++ [c]) as -> by (apply Hnew; [done|congruence]).
          eauto.
        + by apply H2.
      - destruct (f1 !! k) as [n|] eqn:E1.
        + assert (k = cur ++ [c]) as -> by (apply Hnew; [done|congruence]).
          exists [c]. split; [done|]. split; [|done].
          by apply prefix_cons, prefix_nil.
        + destruct (H2 k E1 H0) as (_ & r & Hr & Hp & ->).
          exists (c :: r). split; [done|]. split; [by apply prefix_cons|].
          by rewrite <- app_assoc.
      - intros r Hr Hp. destruct r as [|x r]; [done|].
        pose proof (prefix_cons_inv_1 _ _ _ _ Hp) as ->.
        apply prefix_cons_inv_2 in Hp.
        destruct r as [|y r]; [eauto|].
        rewrite (cons_middle c cur), app_assoc. by apply H3. }
    rewrite mkdir_from_cons.
    destruct (f !! (cur ++ [c])) as [[data|]|] eqn:E; [done|..].
    + apply Hstep; [done|done|]. intros k Hk Hk'. done.
    + apply Hstep.
      * apply lookup_insert_eq.
      * intros k n Hk. rewrite lookup_insert_ne; [done|].
        intros <-. by rewrite E in Hk.
      * intros k Hk Hk'. destruct (decide (cur ++ [c] = k)); [done|].
        by rewrite lookup_insert_ne in Hk'.
Qed.

Lemma removelast_prefix (d : path) : removelast d `prefix_of` d.
Proof.
  destruct d as [|y d _] using rev_ind; [done|].
  rewrite removelast_last. by apply prefix_app_r.
Qed.

Section Confinement.

Variable dest : path.

Lemma confined_refl st : rooted dest (files st) → confined dest st st.
Proof.
  intros Hr. split; [done|]. split; [done|].
  exists []. by rewrite app_nil_r.
Qed.

Lemma confined_trans a b c :
  confined dest a b → confined dest b c → confined dest a c.
Proof.
  intros (_ & Hab & evs1 & Hl1 & He1) (Hr & Hbc & evs2 & Hl2 & He2).
  split; [done|]. split.
  - intros k Hk. by rewrite Hbc, Hab.
  - exists (evs1 ++ evs2). rewrite Hl2, Hl1, app_assoc.
    split; [done|]. by apply Forall_app.
Qed.

(** Sequencing keeps a computation confined. *)
Lemma confined_bind {A B} (m : M A) (k : A → M B) st :
  confined dest st (m st).2 →
  (∀ a st1, m st = (Done a, st1) → rooted dest (files st1) →
            confined dest st1 (k a st1).2) →
  confined dest st ((m ≫= k) st).2.
Proof.
  intros Hm Hk. unfold mbind, M_bind.
  destruct (m st) as [[a|e|] st1] eqn:E; cbn [snd] in *; try done.
  eapply confined_trans; [done|]. apply Hk; [done|]. apply Hm.
Qed.

Lemma rooted_lookup f q :
  rooted dest f → q `prefix_of` dest → q ≠ [] → f !! q = Some Dir.
Proof. intros Hr Hq Hne. apply is_dir_lookup; [done|]. by apply Hr. Qed.

Lemma mkdir_parents_rooted (f f' : fs) :
  mkdir_parents f dest = Ok f' → rooted dest f'.
Proof.
  intros (_ & _ & H)%mkdir_from_spec q Hq. unfold is_dir.
  destruct q as [|x q]; [done|]. cbn [node_at].
  pose proof (H (x :: q) ltac:(done) Hq) as Hx. cbn [app] in Hx.
  by rewrite Hx.
Qed.

(** Making a directory on the way to the destination, or below it,
    changes nothing outside the destination. *)
Lemma mkdir_confined t st :
  rooted dest (files st) →
  t `prefix_of` dest ∨ dest `prefix_of` t →
  confined dest st (mkdir t st).2.
Proof.
  intros Hr Ht. unfold mkdir, mbind, M_bind, get_files, lift, put_files.
  destruct (mkdir_parents (files st) t) as [f'|e] eqn:E;
    cbn; [|by apply confined_refl].
  apply mkdir_from_spec in E as (Hkeep & Hnew & _).
  split; [|split]; cbn [files log].
  - intros q Hq. specialize (Hr q Hq). unfold is_dir in *.
    destruct q as [|x q]; [done|]. cbn [node_at] in *.
    destruct (files st !! (x :: q)) as [[]|] eqn:Eq; try done.
    by rewrite (Hkeep _ _ Eq).
  - intros k Hk.
    destruct (files st !! k) as [n|] eqn:Ek; [by apply Hkeep|].
    destruct (f' !! k) as [n|] eqn:Ek'; [|done].
    destruct (Hnew k Ek) as (_ & r & Hne & Hp & ->); [congruence|].
    cbn [app] in *.
    assert (r `prefix_of` dest ∨ dest `prefix_of` r) as [Hrd|Hrd].
    { destruct Ht as [Ht|Ht].
      - left. by etrans.
      - by eapply prefix_weak_total. }
    + by rewrite (rooted_lookup _ r Hr) in Ek.
    + done.
  - exists []. by rewrite app_nil_r.
Qed.

Lemma emit_confined e st :
  rooted dest (files st) → respects dest e → confined dest st (emit e st).2.
Proof.
  intros Hr He. split; [done|]. split; [done|].
  exists [e]. split; [done|]. by constructor.
Qed.

Lemma raise_confined {A} e st :
  rooted dest (files st) → confined dest st (raise (A:=A) e st).2.
Proof. apply confined_refl. Qed.

Lemma mret_confined {A} (a : A) st :
  rooted dest (files st) → confined dest st ((mret a : M A) st).2.
Proof. apply confined_refl. Qed.

Lemma get_files_confined st :
  rooted dest (files st) → confined dest st (get_files st).2.
Proof. apply confined_refl. Qed.

Lemma read_text_confined p st :
  rooted dest (files st) → ¬ dest `prefix_of` p →
  confined dest st (read_text p st).2.
Proof.
  intros Hr Hp. unfold read_text.
  apply confined_bind; [by apply get_files_confined|].
  intros f st1 _ Hr1.
  destruct (node_at f p) as [[data|]|]; try by apply raise_confined.
  apply confined_bind; [by apply emit_confined|].
  intros. by apply mret_confined.
Qed.

Lemma store_confined p data st :
  rooted dest (files st) → dest `prefix_of` p →
  confined dest st (store p data st).2.
Proof.
  intros Hr Hp. unfold store, mbind, M_bind, get_files.
  destruct (is_dir (files st) p) eqn:Edir; [by apply raise_confined|].
  destruct (negb _); [by apply raise_confined|].
  assert (p ≠ dest) as Hne.
  { intros ->. by rewrite Hr in Edir. }
  cbn. split; [|split]; cbn [files log].
  - intros q Hq. unfold is_dir. rewrite node_at_insert_ne.
    + by apply Hr.
    + intros ->. apply Hne. by apply (anti_symm prefix).
  - intros k Hk. rewrite lookup_insert_ne; [done|]. by intros ->.
  - exists [Written p data]. split; [done|]. by repeat constructor.
Qed.

Lemma copy2_confined src dst st :
  rooted dest (files st) → ¬ dest `prefix_of` src → dest `prefix_of` dst →
  confined dest st (copy2 src dst st).2.
Proof.
  intros Hr Hsrc Hdst. unfold copy2.
  apply confined_bind; [by apply get_files_confined|].
  intros f st1 _ Hr1.
  destruct (node_at f src) as [[data|]|]; try by apply raise_confined.
  case_bool_decide; [by apply raise_confined|].
  apply confined_bind; [by apply emit_confined|].
  intros _ st2 _ Hr2. apply store_confined; [done|].
  destruct (is_dir f dst); [by apply prefix_app_r|done].
Qed.

Lemma parent_comparable (rel : path) :
  parent (dest ++ rel) `prefix_of` dest ∨ dest `prefix_of` parent (dest ++ rel).
Proof.
  unfold parent. destruct rel as [|x rel _] using rev_ind.
  - left. rewrite app_nil_r. apply removelast_prefix.
  - right. rewrite app_assoc, removelast_last. by apply prefix_app_r.
Qed.

(** What [scandir] lists as a file is a file. *)
Lemma scandir_nondir (f : fs) top dirs nondirs name :
  scandir f top = Some (dirs, nondirs) → name ∈ nondirs →
  ∃ data, f !! (top ++ [name]) = Some (File data).
Proof.
  unfold scandir. destruct (is_dir f top); [|done].
  intros [= _ <-] ([name' n] & -> & [Hn Hin]%list_elem_of_filter)%list_elem_of_fmap.
  apply list_elem_of_omap in Hin as ([k n'] & Hk%elem_of_map_to_list & He).
  unfold entry_of in He. cbn [fst snd] in *.
  destruct (relative_to k top) as [[|x [|]]|] eqn:Erel; try done.
  injection He as -> ->. apply relative_to_app in Erel as ->.
  destruct n; [eauto|done].
Qed.

Section Walk.

Variable source_dir : path.
Variable exclude_patterns : list string.
Variable package_import_base package_version package_entrypoint : string.

Abbreviation copy_file :=
  (copy_file source_dir dest exclude_patterns package_import_base
     package_version package_entrypoint).
Abbreviation visit :=
  (visit source_dir dest exclude_patterns package_import_base
     package_version package_entrypoint).
Abbreviation walk :=
  (walk source_dir dest exclude_patterns package_import_base
     package_version package_entrypoint).

Lemma copy_file_confined root name st :
  rooted dest (files st) → ¬ dest `prefix_of` root ++ [name] →
  confined dest st (copy_file root name st).2.
Proof.
  intros Hr Hsrc. unfold Materialize.copy_file.
  apply confined_bind; [by apply get_files_confined|].
  intros f st1 _ Hr1.
  apply confined_bind; [by apply emit_confined|].
  intros _ st2 _ Hr2.
  destruct (Exclude.should_exclude _ _ _ _); [by apply mret_confined|].
  destruct (relative_to _ _) as [rel|]; [|by apply raise_confined].
  apply confined_bind; [apply mkdir_confined; [done|apply parent_comparable]|].
  intros _ st3 _ Hr3.
  destruct (String.eqb name "typst.toml");
    [|destruct (String.eqb (Pathlib.suffix name) ".typ")].
  - apply confined_bind; [by apply read_text_confined|].
    intros content st4 _ Hr4. apply store_confined; [done|].
    by apply prefix_app_r.
  - apply confined_bind; [by apply read_text_confined|].
    intros content st4 _ Hr4. apply store_confined; [done|].
    by apply prefix_app_r.
  - apply copy2_confined; [done..|]. by apply prefix_app_r.
Qed.

Lemma for_each_confined root names st :
  rooted dest (files st) →
  (∀ name, name ∈ names → ¬ dest `prefix_of` root ++ [name]) →
  confined dest st (for_each names (copy_file root) st).2.
Proof.
  revert st. induction names as [|name names IH]; intros st Hr Hnames.
  - by apply mret_confined.
  - cbn [for_each]. apply confined_bind.
    + apply copy_file_confined; [done|]. apply Hnames, elem_of_cons. by left.
    + intros _ st1 _ Hr1. apply IH; [done|].
      intros n Hn. apply Hnames, elem_of_cons. by right.
Qed.

Lemma visit_confined root names st :
  rooted dest (files st) →
  (∀ name, name ∈ names → root ++ [name] ≠ dest) →
  confined dest st (visit root names st).2.
Proof.
  intros Hr Hnames. unfold Materialize.visit, is_relative_to.
  case_bool_decide as Hroot; [by apply mret_confined|].
  apply for_each_confined; [done|].
  intros name Hn [H|H]%prefix_snoc_cases; [done|].
  by apply (Hnames name).
Qed.

Lemma walk_confined fuel stack st :
  rooted dest (files st) → confined dest st (walk fuel stack st).2.
Proof.
  revert stack st. induction fuel as [|fuel IH]; intros stack st Hr.
  - by apply confined_refl.
  - cbn [Materialize.walk]. destruct stack as [|top stack].
    + by apply mret_confined.
    + apply confined_bind; [by apply get_files_confined|].
      intros f st1 [= <- <-] Hr1.
      destruct (scandir (files st) top) as [[dirs nondirs]|] eqn:Escan;
        [|by apply IH].
      apply confined_bind; [|intros; by apply IH].
      apply visit_confined; [done|].
      intros name Hn Heq.
      destruct (scandir_nondir _ _ _ _ _ Escan Hn) as [data Hfile].
      pose proof (Hr dest ltac:(done)) as Hd. unfold is_dir in Hd.
      rewrite <- Heq in Hd.
      destruct (top ++ [name]) eqn:E; [by destruct top|].
      cbn [node_at] in Hd. by rewrite Hfile in Hd.
Qed.

End Walk.

End Confinement.

Section CopyFilesProperties.

Variable source_dir dest_dir : path.
Variable exclude_patterns : list string.
Variable package_import_base package_version package_entrypoint : string.

Abbreviation copy_files :=
  (copy_files source_dir dest_dir exclude_patterns package_import_base
     package_version package_entrypoint).

Lemma copy_files_unfold fuel st :
  copy_files fuel st
  = match mkdir_parents (files st) dest_dir with
    | Ok f' =>
        walk source_dir dest_dir exclude_patterns package_import_base
          package_version package_entrypoint fuel [source_dir]
          {| files := f'; log := log st |}
    | Raise e => (Raised e, st)
    end.
Proof.
  unfold Materialize.copy_files, mkdir, mbind, M_bind, get_files, lift,
    put_files.
  by destruct (mkdir_parents (files st) dest_dir).
Qed.

(** A run of [copy_files]: its events respect the destination, and
    outside the destination it at most makes the directories that lead
    there. *)
Lemma copy_files_run fuel st :
  let st1 := (copy_files fuel st).2 in
  (∃ evs, log st1 = log st ++ evs ∧ Forall (respects dest_dir) evs)
  ∧ (∀ k, ¬ dest_dir `prefix_of` k →
          files st1 !! k = files st !! k
          ∨ (files st !! k = None ∧ files st1 !! k = Some Dir
             ∧ k ≠ [] ∧ k `prefix_of` dest_dir))
  ∧ ((∀ fuel', (copy_files fuel' st1).2 = st1) ∨ rooted dest_dir (files st1)).
Proof.
  cbv zeta. rewrite copy_files_unfold.
  destruct (mkdir_parents (files st) dest_dir) as [f'|e] eqn:E; cbn [snd].
  2:{ split; [exists []; by rewrite app_nil_r|]. split; [by left|left].
      intros fuel'. by rewrite copy_files_unfold, E. }
  pose proof (mkdir_parents_rooted _ _ _ E) as Hr.
  apply mkdir_from_spec in E as (Hkeep & Hnew & _).
  destruct (walk_confined dest_dir source_dir exclude_patterns
              package_import_base package_version package_entrypoint
              fuel [source_dir] {| files := f'; log := log st |} Hr)
    as (Hr1 & Hsame & Hevs).
  split; [done|]. split; [|by right].
  intros k Hk. rewrite (Hsame k Hk). cbn [files].
  destruct (files st !! k) as [n|] eqn:Ek; [left; by apply Hkeep|].
  destruct (f' !! k) as [n|] eqn:Ek'; [right|by left].
  destruct (Hnew k Ek) as (Hd & r & Hne & Hp & ->); [congruence|].
  split; [done|]. split; [congruence|done].
Qed.

(** X14 (C6).  Whatever the source and the destination, and however long the
    walk is followed: nothing at or below the destination root is matched
    against the exclusion rules or read, and everything written lies
    below the destination root; outside the destination the run changes
    nothing but the directories it makes on the way there.  So a second
    run, started where the first one left off, reads and matches nothing
    the first one wrote and leaves everything outside the destination as
    it found it. *)
Theorem destination_never_visited fuel fuel' st :
  let st1 := (copy_files fuel st).2 in
  let st2 := (copy_files fuel' st1).2 in
  (∃ evs, log st1 = log st ++ evs ∧ Forall (respects dest_dir) evs)
  ∧ (∀ k, ¬ dest_dir `prefix_of` k →
          files st1 !! k = files st !! k
          ∨ (files st !! k = None ∧ files st1 !! k = Some Dir
             ∧ k ≠ [] ∧ k `prefix_of` dest_dir))
  ∧ (∃ evs, log st2 = log st1 ++ evs ∧ Forall (respects dest_dir) evs)
  ∧ (∀ k, ¬ dest_dir `prefix_of` k → files st2 !! k = files st1 !! k).
Proof.
  intros st1 st2.
  destruct (copy_files_run fuel st) as (H1 & H2 & H3).
  destruct (copy_files_run fuel' st1) as (H4 & H5 & H6).
  fold st1 in H1, H2, H3. fold st2 in H4, H5, H6.
  split; [done|]. split; [done|]. split; [done|].
  intros k Hk. destruct (H5 k Hk) as [?|(Hnone & _ & Hne & Hp)]; [done|].
  destruct H3 as [Hsame|Hr].
  - (* the first run ended at once, and so does the second *)
    subst st2. by rewrite Hsame.
  - by rewrite (rooted_lookup dest_dir _ _ Hr Hp) in Hnone.
Qed.

End CopyFilesProperties.

End MaterializeProperties.
Section CopyFileProperties.

Import FS Materialize.

Variable source_dir dest_dir : path.
Variable exclude_patterns : list string.
Variable package_import_base package_version package_entrypoint : string.

Abbreviation copy_file :=
  (copy_file source_dir dest_dir exclude_patterns package_import_base
     package_version package_entrypoint).
Abbreviation transform :=
  (transform package_import_base package_version package_entrypoint).

Lemma store_done p data st st' :
  store p data st = (Done tt, st') →
  files st' = <[p := File data]> (files st)
  ∧ log st' = log st ++ [Written p data].
Proof.
  unfold store, mbind, M_bind, get_files, put_files, emit, raise.
  destruct (is_dir (files st) p); [done|].
  destruct (negb _); [done|]. cbn. by intros [= <-].
Qed.

Lemma read_text_done p st content st' :
  read_text p st = (Done content, st') →
  ∃ raw, node_at (files st) p = Some (File raw)
         ∧ content = universal_newlines raw
         ∧ files st' = files st
         ∧ log st' = log st ++ [ReadFile p].
Proof.
  unfold read_text, mbind, M_bind, get_files, emit, raise.
  destruct (node_at (files st) p) as [[raw|]|]; try done.
  cbn. intros [= <- <-]. eauto.
Qed.

Lemma mkdir_done t st st' :
  mkdir t st = (Done tt, st') →
  mkdir_parents (files st) t = Ok (files st') ∧ log st' = log st.
Proof.
  unfold mkdir, mbind, M_bind, get_files, lift, put_files.
  destruct (mkdir_parents (files st) t); [|done].
  cbn. by intros [= <-].
Qed.

(** A file that existed before [mkdir] is there after it. *)
Lemma mkdir_keeps_file (f f' : fs) t p raw :
  p ≠ [] → mkdir_parents f t = Ok f' →
  node_at f' p = Some (File raw) → node_at f p = Some (File raw).
Proof.
  intros Hp (Hkeep & Hnew & _)%mkdir_from_spec.
  destruct p as [|x p]; [done|]. cbn [node_at]. intros H.
  destruct (f !! (x :: p)) as [n|] eqn:E.
  - apply Hkeep in E. congruence.
  - destruct (Hnew (x :: p) E) as [Hd _]; congruence.
Qed.

(** A file that is not excluded and whose copy goes through: its stored
    text is read, and its transform is written below the destination. *)
Lemma copy_file_done root name st st' :
  copy_file root name st = (Done tt, st') →
  Exclude.should_exclude (files st) (root ++ [name]) exclude_patterns
    source_dir = false →
  ∃ raw dst,
    files st !! (root ++ [name]) = Some (File raw)
    ∧ dest_dir `prefix_of` dst
    ∧ log st' = log st ++ [Matched (root ++ [name]); ReadFile (root ++ [name]);
                           Written dst (transform name raw)]
    ∧ files st' !! dst = Some (File (transform name raw)).
Proof.
  intros Hrun Hex. revert Hrun.
  unfold Materialize.copy_file.
  unfold mbind at 1, M_bind at 1, get_files at 1.
  unfold mbind at 1, M_bind at 1, emit at 1. cbn [files log].
  rewrite Hex.
  destruct (relative_to _ _) as [rel|]; [|done].
  unfold mbind at 1, M_bind at 1.
  destruct (mkdir _ _) as [[[]|e|] st1] eqn:Emk; try done.
  apply mkdir_done in Emk as [Emk Hlog1]. cbn [files log] in *.
  assert (root ++ [name] ≠ []) as Hsrc by by destruct root.
  assert (∀ raw, node_at (files st1) (root ++ [name]) = Some (File raw) →
                 files st !! (root ++ [name]) = Some (File raw)) as Hraw.
  { intros raw H. eapply mkdir_keeps_file in H; [|done..].
    destruct (root ++ [name]); done. }
  unfold Materialize.transform.
  destruct (String.eqb name "typst.toml");
    [|destruct (String.eqb (Pathlib.suffix name) ".typ")].
  - unfold mbind, M_bind.
    destruct (read_text _ _) as [[content|e|] st2] eqn:Erd; try done.
    apply read_text_done in Erd as (raw & Hn & -> & Hf2 & Hl2).
    intros (Hf3 & Hl3)%store_done.
    exists raw, (dest_dir ++ rel). split; [by apply Hraw|].
    split; [by apply prefix_app_r|]. split.
    + rewrite Hl3, Hl2, Hlog1, <- !app_assoc. done.
    + rewrite Hf3. apply lookup_insert_eq.
  - unfold mbind, M_bind.
    destruct (read_text _ _) as [[content|e|] st2] eqn:Erd; try done.
    apply read_text_done in Erd as (raw & Hn & -> & Hf2 & Hl2).
    intros (Hf3 & Hl3)%store_done.
    exists raw, (dest_dir ++ rel). split; [by apply Hraw|].
    split; [by apply prefix_app_r|]. split.
    + rewrite Hl3, Hl2, Hlog1, <- !app_assoc. done.
    + rewrite Hf3. apply lookup_insert_eq.
  - unfold copy2, mbind, M_bind, get_files.
    destruct (node_at (files st1) (root ++ [name])) as [[raw|]|] eqn:Hn;
      try done.
    case_bool_decide; [done|]. unfold emit at 1. cbn [files log].
    intros (Hf3 & Hl3)%store_done. cbn [files log] in *.
    assert (dest_dir `prefix_of`
              if is_dir (files st1) (dest_dir ++ rel)
              then (dest_dir ++ rel) ++ [basename (root ++ [name])]
              else dest_dir ++ rel) as Hdst.
    { destruct (is_dir _ _); [|by apply prefix_app_r].
      rewrite <- app_assoc. by apply prefix_app_r. }
    set (dst := if is_dir _ _ then _ else _) in *.
    exists raw, dst. split; [by apply Hraw|].
    split; [done|]. split.
    + rewrite Hl3, Hlog1, <- !app_assoc. done.
    + rewrite Hf3. apply lookup_insert_eq.
Qed.

(** X16 (C10, as amended).  For a manifest that is copied, the text written is
    the lines of the source as read, without the schema lines, joined by
    line feeds.  No such line holds a line boundary, so the line
    terminators of the source are gone and every line feed written
    separates two lines; the text written ends with a line feed exactly
    when at least two lines are kept and the last of them is empty. *)
Theorem manifest_lines_rejoined root st st' :
  copy_file root "typst.toml" st = (Done tt, st') →
  Exclude.should_exclude (files st) (root ++ ["typst.toml"]) exclude_patterns
    source_dir = false →
  ∃ raw dst,
    files st !! (root ++ ["typst.toml"]) = Some (File raw)
    ∧ let kept :=
        List.filter (λ line, negb (Transform.is_schema_line line))
          (Py.splitlines (universal_newlines raw)) in
      let data := Py.join Transform.newline kept in
      log st' = log st ++ [Matched (root ++ ["typst.toml"]);
                           ReadFile (root ++ ["typst.toml"]);
                           Written dst data]
      ∧ files st' !! dst = Some (File data)
      ∧ Forall Transform.no_break kept
      ∧ (Py.endswith data Transform.newline = true
         ↔ ∃ init, init ≠ [] ∧ kept = init ++ [""]).
Proof.
  intros Hrun Hex.
  destruct (copy_file_done _ _ _ _ Hrun Hex) as (raw & dst & Hraw & _ & Hlog & Hf).
  exists raw, dst. split; [done|]. intros kept data.
  assert (Forall Transform.no_break kept) as Hkept.
  { apply Forall_forall. intros line Hl%list_elem_of_In%filter_In.
    destruct Hl as [Hl%list_elem_of_In _].
    by eapply Forall_forall in Hl; [|apply splitlines_no_break]. }
  repeat split; try done; by apply join_ends_with_newline.
Qed.

Lemma typ_is_not_manifest name :
  Pathlib.suffix name = ".typ" → String.eqb name "typst.toml" = false.
Proof.
  intros H. destruct (String.eqb_spec name "typst.toml") as [->|]; [|done].
  discriminate.
Qed.

End CopyFileProperties.

(** X15 (C5, as amended).  In a package [foo], version [1.0.0], namespace
    [preview], with entry point [main.typ]: when a source file with the
    suffix [.typ], as read in text mode, is made of quiet texts with an
    occurrence of the self-import after each, and it is copied, then the
    text written is the same texts with the package import in place of
    every occurrence.  The texts are those read in text mode; they are the
    stored ones when the file holds no carriage return. *)
Theorem self_imports_rewritten source_dir dest_dir exclude_patterns
    root name st st' texts tail raw :
  Pathlib.suffix name = ".typ" →
  FS.node_at (Materialize.files st) (root ++ [name]) = Some (FS.File raw) →
  FS.universal_newlines raw
  = Transform.interleave texts Transform.self_import tail →
  Forall (λ t, Transform.quiet t = true) texts →
  Transform.quiet tail = true →
  Exclude.should_exclude (Materialize.files st) (root ++ [name])
    exclude_patterns source_dir = false →
  Materialize.copy_file source_dir dest_dir exclude_patterns "preview/foo"
    "1.0.0" "main.typ" root name st = (Materialize.Done tt, st') →
  ∃ dst,
    dest_dir `prefix_of` dst
    ∧ Materialize.log st'
      = Materialize.log st
        ++ [Materialize.Matched (root ++ [name]);
            Materialize.ReadFile (root ++ [name]);
            Materialize.Written dst
              (Transform.interleave texts Transform.package_import tail)]
    ∧ Materialize.files st' !! dst
      = Some (FS.File (Transform.interleave texts Transform.package_import tail)).
Proof.
  intros Hsuf Hnode Hread Htexts Htail Hex Hrun.
  destruct (copy_file_done _ _ _ _ _ _ _ _ _ _ Hrun Hex)
    as (raw' & dst & Hraw & Hdst & Hlog & Hf).
  assert (raw' = raw) as ->.
  { destruct (root ++ [name]) eqn:E; [by destruct root|].
    cbn [FS.node_at] in Hnode. congruence. }
  assert (Materialize.transform "preview/foo" "1.0.0" "main.typ" name raw
          = Transform.interleave texts Transform.package_import tail) as Ht.
  { unfold Materialize.transform.
    rewrite typ_is_not_manifest, Hsuf by done.
    change (String.eqb ".typ" ".typ") with true. cbn match.
    rewrite Hread. by apply rewrite_interleaved. }
  rewrite Ht in Hlog, Hf. eauto.
Qed.

Lemma universal_newlines_without_cr raw :
  Py.contains_char "013" raw = false → FS.universal_newlines raw = raw.
Proof.
  induction raw as [|c raw IH]; [done|].
  cbn [Py.contains_char FS.universal_newlines].
  rewrite Ascii.eqb_sym. intros [-> ->%IH]%orb_false_iff. done.
Qed.

(** ** The properties on sample packages *)

(** C5 as amended, on a library file with two self-imports. *)
Lemma self_imports_rewritten_witness :
  ∃ dst,
    ["out"; "foo"; "1.0.0"] `prefix_of` dst
    ∧ Materialize.log (Sample.copy_one "main.typ" Sample.lib_typ).2
      = Materialize.log (Sample.ready "main.typ" Sample.lib_typ)
        ++ [Materialize.Matched (["pkg"; "foo"] ++ ["main.typ"]);
            Materialize.ReadFile (["pkg"; "foo"] ++ ["main.typ"]);
            Materialize.Written dst
              (Transform.interleave Sample.lib_texts
                 Transform.package_import Sample.lf)]
    ∧ Materialize.files (Sample.copy_one "main.typ" Sample.lib_typ).2 !! dst
      = Some (FS.File (Transform.interleave Sample.lib_texts
                         Transform.package_import Sample.lf)).
Proof.
  refine (self_imports_rewritten ["pkg"; "foo"] ["out"; "foo"; "1.0.0"] []
            ["pkg"; "foo"] "main.typ"
            (Sample.ready "main.typ" Sample.lib_typ)
            (Sample.copy_one "main.typ" Sample.lib_typ).2
            Sample.lib_texts Sample.lf Sample.lib_typ _ _ _ _ _ _ _).
  - vm_compute. reflexivity.
  - vm_compute. reflexivity.
  - vm_compute. reflexivity.
  - repeat constructor.
  - vm_compute. reflexivity.
  - vm_compute. reflexivity.
  - vm_compute. reflexivity.
Defined.

(** C5 as stated fails: of a file stored with carriage returns, the text
    around the import is written with line feeds only. *)
Lemma carriage_returns_not_kept :
  Materialize.log (Sample.copy_one "main.typ" Sample.crlf_typ).2
  = [Materialize.Matched ["pkg"; "foo"; "main.typ"];
     Materialize.ReadFile ["pkg"; "foo"; "main.typ"];
     Materialize.Written ["out"; "foo"; "1.0.0"; "main.typ"]
       ("// helpers" +:+ Sample.lf +:+ Transform.package_import +:+ Sample.lf)]
  ∧ "// helpers" +:+ Sample.lf +:+ Transform.package_import +:+ Sample.lf
    ≠ "// helpers" +:+ Sample.cr +:+ Sample.lf +:+ Transform.package_import
      +:+ Sample.cr +:+ Sample.lf.
Proof. split; [vm_compute; reflexivity|]. vm_compute. discriminate. Qed.

(** C10 as amended, on a manifest with a schema line. *)
Lemma manifest_lines_rejoined_witness :
  ∃ raw dst,
    Materialize.files (Sample.ready "typst.toml" Sample.manifest)
    !! (["pkg"; "foo"] ++ ["typst.toml"]) = Some (FS.File raw)
    ∧ let kept :=
        List.filter (λ line, negb (Transform.is_schema_line line))
          (Py.splitlines (FS.universal_newlines raw)) in
      let data := Py.join Transform.newline kept in
      Materialize.log (Sample.copy_one "typst.toml" Sample.manifest).2
      = Materialize.log (Sample.ready "typst.toml" Sample.manifest)
        ++ [Materialize.Matched (["pkg"; "foo"] ++ ["typst.toml"]);
            Materialize.ReadFile (["pkg"; "foo"] ++ ["typst.toml"]);
            Materialize.Written dst data]
      ∧ Materialize.files (Sample.copy_one "typst.toml" Sample.manifest).2
        !! dst = Some (FS.File data)
      ∧ Forall Transform.no_break kept
      ∧ (Py.endswith data Transform.newline = true
         ↔ ∃ init, init ≠ [] ∧ kept = init ++ [""]).
Proof.
  refine (manifest_lines_rejoined ["pkg"; "foo"] ["out"; "foo"; "1.0.0"] []
            "preview/foo" "1.0.0" "main.typ" ["pkg"; "foo"]
            (Sample.ready "typst.toml" Sample.manifest)
            (Sample.copy_one "typst.toml" Sample.manifest).2 _ _).
  - vm_compute. reflexivity.
  - vm_compute. reflexivity.
Defined.

(** C10 as stated fails: a manifest that ends with an empty line is
    written with a line feed at its end. *)
Lemma blank_last_line_keeps_newline :
  Materialize.log (Sample.copy_one "typst.toml" Sample.manifest_blank_end).2
  = [Materialize.Matched ["pkg"; "foo"; "typst.toml"];
     Materialize.ReadFile ["pkg"; "foo"; "typst.toml"];
     Materialize.Written ["out"; "foo"; "1.0.0"; "typst.toml"]
       ("[package]" +:+ Sample.lf +:+ "name = 'foo'" +:+ Sample.lf)]
  ∧ Py.endswith ("[package]" +:+ Sample.lf +:+ "name = 'foo'" +:+ Sample.lf)
      Transform.newline = true.
Proof. split; vm_compute; reflexivity. Qed.

(** A build into a directory inside the package, run twice: the second run
    does what the first did, and leaves the files as they were. *)
Lemma rebuild_inside_source :
  let first := Sample.build_inside 10 Sample.built_inside in
  let second := Sample.build_inside 10 first.2 in
  first.1 = Materialize.Done tt
  ∧ second.1 = Materialize.Done tt
  ∧ Materialize.log second.2 = Materialize.log first.2
  ∧ Materialize.files second.2 = Materialize.files first.2.
Proof. cbv zeta. repeat split; vm_compute; reflexivity. Qed.

(** ** More on version requirements *)

Section SemverMore.

Import Semver.

(** X1.  [cmp_semver] is the sign of the order on version triples: its
    value is one of -1, 0 and 1, it is 1 exactly when the second triple
    is below the first and -1 exactly when the first is below the second,
    it is 0 for equal triples only, and exchanging the arguments changes
    the sign. *)
Theorem cmp_semver_is_a_sign (a b : version) :
  (cmp_semver a b = -1 ∨ cmp_semver a b = 0 ∨ cmp_semver a b = 1)
  ∧ (cmp_semver a b = 1 ↔ tuple_lt b a = true)
  ∧ (cmp_semver a b = -1 ↔ tuple_lt a b = true)
  ∧ (cmp_semver a b = 0 ↔ a = b)
  ∧ cmp_semver b a = - cmp_semver a b.
Proof.
  assert (cmp_semver b a = - cmp_semver a b) as Hanti.
  { unfold cmp_semver. lia. }
  assert (∀ x : version, tuple_lt x x = false) as Hirr.
  { intros [[x1 x2] x3]. unfold tuple_lt.
    rewrite !Z.ltb_irrefl, !Z.eqb_refl. reflexivity. }
  destruct (cmp_semver_sign a b) as [[E H]|[[E H]|[E H]]].
  - subst b. rewrite E. repeat split; auto; try lia; try (intros; lia).
    + rewrite Hirr. discriminate.
    + rewrite Hirr. discriminate.
  - assert (tuple_lt a b = false) as Hab.
    { revert E. unfold cmp_semver. rewrite H.
      destruct (tuple_lt a b); cbn; [lia|reflexivity]. }
    rewrite E, H, Hab. repeat split; auto; try lia; try discriminate.
    intros ->. rewrite Hirr in H. discriminate.
  - assert (tuple_lt b a = false) as Hba.
    { revert E. unfold cmp_semver. rewrite H.
      destruct (tuple_lt b a); cbn; [lia|reflexivity]. }
    rewrite E, H, Hba. repeat split; auto; try lia; try discriminate.
    intros ->. rewrite Hirr in H. discriminate.
Qed.

(** X2.  The table from operators to outcomes makes each operator mean
    what it says on version triples: [>] and [<] are the strict order,
    [>=] and [<=] their negations the other way round, [==] and [=] are
    equality and [!=] is its negation. *)
Theorem operators_follow_tuple_order (ver sv : version) :
  op_ok Gt (cmp_semver ver sv) = tuple_lt sv ver
  ∧ op_ok Lt (cmp_semver ver sv) = tuple_lt ver sv
  ∧ op_ok Ge (cmp_semver ver sv) = negb (tuple_lt ver sv)
  ∧ op_ok Le (cmp_semver ver sv) = negb (tuple_lt sv ver)
  ∧ (op_ok EqEq (cmp_semver ver sv) = true ↔ ver = sv)
  ∧ (op_ok Eq (cmp_semver ver sv) = true ↔ ver = sv)
  ∧ (op_ok Ne (cmp_semver ver sv) = true ↔ ver ≠ sv).
Proof.
  assert (∀ x : version, tuple_lt x x = false) as Hirr.
  { intros [[x1 x2] x3]. unfold tuple_lt.
    rewrite !Z.ltb_irrefl, !Z.eqb_refl. reflexivity. }
  destruct (cmp_semver_sign ver sv) as [[E H]|[[E H]|[E H]]].
  - subst sv. rewrite E, Hirr. cbn.
    intuition (try discriminate; try congruence).
  - assert (tuple_lt ver sv = false) as Hab.
    { revert E. unfold cmp_semver. rewrite H.
      destruct (tuple_lt ver sv); cbn; [lia|reflexivity]. }
    assert (ver ≠ sv) as Hne.
    { intros ->. rewrite Hirr in H. discriminate. }
    rewrite E, H, Hab. cbn.
    intuition (try discriminate; try congruence).
  - assert (tuple_lt sv ver = false) as Hba.
    { revert E. unfold cmp_semver. rewrite H.
      destruct (tuple_lt sv ver); cbn; [lia|reflexivity]. }
    assert (ver ≠ sv) as Hne.
    { intros ->. rewrite Hirr in H. discriminate. }
    rewrite E, H, Hba. cbn.
    intuition (try discriminate; try congruence).
Qed.

Lemma find_operator_is t o ops : find_operator ops t = Some o → t = op_str o.
Proof.
  induction ops as [|o' ops IH]; cbn; [discriminate|].
  destruct (String.eqb_spec t (op_str o')) as [->|_]; [|exact IH].
  intros [= ->]. reflexivity.
Qed.

(** A token without an operator prefix is no operator. *)
Lemma no_prefix_no_operator t :
  find_prefix operators t = None → find_operator operators t = None.
Proof.
  intros Hp. destruct (find_operator operators t) as [o|] eqn:E; [|reflexivity].
  apply find_operator_is in E as ->.
  destruct (find_prefix_operator o) as [o' H]. congruence.
Qed.

Lemma recognized_by_prefix tokens :
  recognized tokens = omap (find_prefix operators) tokens.
Proof.
  induction tokens as [|t rest IH]; [reflexivity|].
  cbn [recognized omap list_omap].
  destruct (find_prefix operators t) as [[o v]|] eqn:E.
  - by rewrite IH.
  - by rewrite (no_prefix_no_operator t E).
Qed.

(** X3.  Every token is judged on its own: the result is the conjunction,
    over the tokens that start with an operator, of the check of that
    operator against the rest of the token.  The branch for an operator
    and its operand in two tokens is never taken. *)
Theorem tokens_judged_one_by_one req ver :
  matches_version_req req ver
  = forallb (holds ver) (omap (find_prefix operators) (Py.split_ws req)).
Proof.
  unfold matches_version_req.
  destruct (Py.split_ws req) as [|t rest] eqn:E; [reflexivity|].
  by rewrite req_loop_recognized, recognized_by_prefix.
Qed.

Lemma matches_tokenwise req ver :
  matches_version_req req ver
  = forallb (holds ver) (omap (find_prefix operators) (Py.split_ws req)).
Proof.
  unfold matches_version_req.
  destruct (Py.split_ws req) as [|t rest] eqn:E; [reflexivity|].
  by rewrite req_loop_recognized, recognized_by_prefix.
Qed.

Lemma forallb_Permutation {A} (p : A → bool) l l' :
  l ≡ₚ l' → forallb p l = forallb p l'.
Proof.
  induction 1 as [|x l l' _ IH|x y l|l l' l'' _ IH1 _ IH2]; cbn.
  - reflexivity.
  - by rewrite IH.
  - destruct (p x), (p y); reflexivity.
  - congruence.
Qed.

(** X4.  The order of the constraints does not matter: two requirements
    with the same tokens in any order match the same versions. *)
Theorem token_order_is_irrelevant req req' ver :
  Py.split_ws req ≡ₚ Py.split_ws req' →
  matches_version_req req ver = matches_version_req req' ver.
Proof.
  intros Hp. rewrite !matches_tokenwise.
  apply forallb_Permutation. by apply omap_Permutation.
Qed.

(** X5.  A requirement none of whose tokens starts with an operator
    constrains nothing: it matches every version.  A bare version such as
    [0.12.0] is such a requirement. *)
Theorem tokens_without_operator_are_ignored req ver :
  Forall (λ t, find_prefix operators t = None) (Py.split_ws req) →
  matches_version_req req ver = true.
Proof.
  intros H. rewrite matches_tokenwise.
  induction H as [|t rest Ht _ IH]; [reflexivity|].
  cbn [omap list_omap]. by rewrite Ht.
Qed.

(** X6.  A token that starts with an operator and goes on with something
    that is no version settles the matter: the requirement matches no
    version, whatever its other tokens are. *)
Theorem bad_operand_matches_nothing req ver t o v :
  t ∈ Py.split_ws req →
  find_prefix operators t = Some (o, v) →
  match_semver v = None →
  matches_version_req req ver = false.
Proof.
  intros Hin Hp Hv. rewrite matches_tokenwise.
  induction (Py.split_ws req) as [|t' rest IH]; [by apply elem_of_nil in Hin|].
  cbn [omap list_omap].
  apply elem_of_cons in Hin as [<-|Hin].
  - rewrite Hp. cbn [forallb]. unfold holds. cbn. by rewrite Hv.
  - destruct (find_prefix operators t') as [c|]; [|by apply IH].
    cbn [forallb]. rewrite (IH Hin). apply andb_false_r.
Qed.

Lemma split_ws_starts c s :
  Py.isspace c = false → Py.split_ws (String c s) ≠ [].
Proof.
  intros Hc. cbn [Py.split_ws]. rewrite Hc.
  destruct s as [|d s]; [done|].
  destruct (Py.isspace d); [done|].
  by destruct (Py.split_ws (String d s)).
Qed.

Lemma cons_head_app c l l' :
  l ≠ [] → Py.cons_head c (l ++ l') = Py.cons_head c l ++ l'.
Proof. by destruct l. Qed.

(** The tokens of two texts with a space between them. *)
Lemma split_ws_space a b :
  Py.split_ws (a +:+ String " " b) = Py.split_ws a ++ Py.split_ws b.
Proof.
  induction a as [|c a IH]; [reflexivity|].
  rewrite append_cons.
  destruct a as [|d a].
  - rewrite append_nil_l.
    cbn [Py.split_ws]. destruct (Py.isspace c); [reflexivity|].
    change (Py.isspace " ") with true. cbn iota. reflexivity.
  - rewrite append_cons in *.
    change (Py.split_ws (String c (String d (a +:+ String " " b))))
      with (if Py.isspace c then Py.split_ws (String d (a +:+ String " " b))
            else if Py.isspace d
                 then String c "" :: Py.split_ws (String d (a +:+ String " " b))
                 else Py.cons_head c (Py.split_ws (String d (a +:+ String " " b)))).
    change (Py.split_ws (String c (String d a)))
      with (if Py.isspace c then Py.split_ws (String d a)
            else if Py.isspace d
                 then String c "" :: Py.split_ws (String d a)
                 else Py.cons_head c (Py.split_ws (String d a))).
    rewrite IH.
    destruct (Py.isspace c); [reflexivity|].
    destruct (Py.isspace d) eqn:Hd; [reflexivity|].
    apply cons_head_app. by apply split_ws_starts.
Qed.

(** X7.  Two requirements written one after the other, with a space
    between them, are matched by the versions that match both. *)
Theorem requirements_compose req req' ver :
  matches_version_req (req +:+ " " +:+ req') ver
  = matches_version_req req ver && matches_version_req req' ver.
Proof.
  rewrite !matches_tokenwise.
  change (" " +:+ req') with (String " " req').
  rewrite split_ws_space, omap_app. apply forallb_app.
Qed.

Lemma read_digits_app acc s rest :
  ends_number rest →
  read_digits acc (s +:+ rest)
  = ((read_digits acc s).1, (read_digits acc s).2 +:+ rest).
Proof.
  intros Hrest. revert acc. induction s as [|c s IH]; intros acc.
  - rewrite append_nil_l. destruct rest as [|c rest]; [reflexivity|].
    cbn in *. by rewrite Hrest.
  - rewrite append_cons. cbn [read_digits].
    destruct (Py.digit c); [apply IH|]. by rewrite <- append_cons.
Qed.

Lemma number_app s rest n r :
  ends_number rest → number s = Some (n, r) →
  number (s +:+ rest) = Some (n, r +:+ rest).
Proof.
  intros Hrest. destruct s as [|c s]; [discriminate|].
  rewrite append_cons. cbn [number].
  destruct (Py.digit c) as [d|]; [|discriminate].
  rewrite read_digits_app by done.
  destruct (read_digits d s). by intros [= -> ->].
Qed.

Lemma number_app_dot s rest n r :
  number s = Some (n, r) → dot r ≠ None →
  number (s +:+ rest) = Some (n, r +:+ rest).
Proof.
  destruct s as [|c s]; [discriminate|].
  rewrite append_cons. cbn [number].
  destruct (Py.digit c) as [d|]; [|discriminate].
  intros H Hdot. revert H. generalize d. clear d.
  induction s as [|c' s IH]; intros d.
  - cbn. intros [= <- <-]. done.
  - rewrite append_cons. cbn [read_digits].
    destruct (Py.digit c') as [d'|] eqn:Hc'; [apply IH|].
    intros [= <- <-]. by rewrite append_cons.
Qed.

Lemma dot_app s rest r : dot s = Some r → dot (s +:+ rest) = Some (r +:+ rest).
Proof.
  destruct s as [|c s]; [discriminate|]. rewrite append_cons. cbn.
  destruct (Ascii.eqb_spec c "."); subst; [|by destruct c as [[] [] [] [] [] [] [] []]].
  by intros [= ->].
Qed.

Lemma lstrip_app s rest :
  Py.lstrip s ≠ "" → Py.lstrip (s +:+ rest) = Py.lstrip s +:+ rest.
Proof.
  induction s as [|c s IH]; [done|].
  rewrite append_cons. cbn [Py.lstrip].
  destruct (Py.isspace c); [exact IH|]. by rewrite append_cons.
Qed.

Lemma lstrip_spaces ws s :
  Forall (λ c, Py.isspace c = true) (list_ascii_of_string ws) →
  Py.lstrip (ws +:+ s) = Py.lstrip s.
Proof.
  induction ws as [|c ws IH]; [done|].
  cbn [list_ascii_of_string]. intros [Hc Hws]%Forall_cons.
  rewrite append_cons. cbn [Py.lstrip]. rewrite Hc. by apply IH.
Qed.

(** X8.  [parse_semver] reads a version at the start of the text and
    nothing else: white space before a version that parses, and anything
    after it that does not go on with a digit, leave the result as it
    is. *)
Theorem parse_semver_reads_a_prefix ws v rest t :
  parse_semver v = Ok t →
  Forall (λ c, Py.isspace c = true) (list_ascii_of_string ws) →
  ends_number rest →
  parse_semver (ws +:+ v +:+ rest) = Ok t.
Proof.
  unfold parse_semver.
  destruct (match_semver v) as [t'|] eqn:E; [|discriminate].
  intros [= ->] Hws Hrest.
  assert (match_semver (ws +:+ v +:+ rest) = Some t) as ->; [|reflexivity].
  revert E. unfold match_semver. rewrite lstrip_spaces by done.
  destruct (Py.lstrip v) as [|c0 s0] eqn:Hl; [discriminate|].
  rewrite lstrip_app, Hl by by rewrite Hl.
  generalize (String c0 s0). clear Hl c0 s0. intros s.
  destruct (number s) as [[major s1]|] eqn:E1; [|discriminate].
  cbn [mbind option_bind].
  destruct (dot s1) as [s1'|] eqn:D1; [|discriminate].
  rewrite (number_app_dot s rest major s1) by (done || by rewrite D1).
  cbn [mbind option_bind]. rewrite (dot_app _ rest _ D1).
  cbn [mbind option_bind].
  destruct (number s1') as [[minor s2]|] eqn:E2; [|discriminate].
  cbn [mbind option_bind].
  destruct (dot s2) as [s2'|] eqn:D2; [|discriminate].
  rewrite (number_app_dot s1' rest minor s2) by (done || by rewrite D2).
  cbn [mbind option_bind]. rewrite (dot_app _ rest _ D2).
  cbn [mbind option_bind].
  destruct (number s2') as [[patch s3]|] eqn:E3; [|discriminate].
  rewrite (number_app s2' rest patch s3) by done.
  done.
Qed.

Lemma tuple_lt_before a b : tuple_lt a b = true ↔ before a b.
Proof.
  destruct a as [[a1 a2] a3], b as [[b1 b2] b3].
  unfold tuple_lt, before. cbn [fst snd].
  destruct (Z.ltb_spec a1 b1), (Z.eqb_spec a1 b1), (Z.ltb_spec a2 b2),
    (Z.eqb_spec a2 b2), (Z.ltb_spec a3 b3); cbn;
    split; intros; first [discriminate | lia | reflexivity].
Qed.

(** The table of operators against the order of the triples. *)
Lemma op_ok_satisfies ver o sv :
  op_ok o (cmp_semver ver sv) = true ↔ satisfies ver o sv.
Proof.
  assert (before ver sv → before sv ver → False) as Hasym.
  { destruct ver as [[a1 a2] a3], sv as [[b1 b2] b3].
    unfold before. cbn [fst snd]. lia. }
  assert (ver = sv → ¬ before ver sv ∧ ¬ before sv ver) as Hirr.
  { intros ->. destruct sv as [[b1 b2] b3].
    unfold before. cbn [fst snd]. lia. }
  destruct (cmp_semver_sign ver sv) as [[E H]|[[E H]|[E H]]]; rewrite E.
  - destruct (Hirr H) as [H1 H2].
    destruct o; cbn; intuition (try discriminate; try congruence).
  - apply tuple_lt_before in H.
    destruct o; cbn; intuition (try discriminate; try congruence).
  - apply tuple_lt_before in H.
    destruct o; cbn; intuition (try discriminate; try congruence).
Qed.

(** The tuple of operators has the operators of two characters first, so
    the first operator a token starts with is the longest one. *)
Lemma find_prefix_longest t o v :
  find_prefix operators t = Some (o, v) → reads_as t o v.
Proof.
  assert (∀ o' v', t = op_str o' +:+ v' → Py.startswith t (op_str o') = true)
    as Hst by (intros o' v' ->; apply startswith_iff; eauto).
  intros H. unfold operators in H. cbn [find_prefix op_str] in H.
  repeat match type of H with
         | (if Py.startswith t ?p then _ else _) = _ =>
             let E := fresh "E" in destruct (Py.startswith t p) eqn:E
         end; try discriminate;
    injection H as <- <-;
    match goal with
    | E : Py.startswith t _ = true |- _ =>
        pose proof E as E'; apply startswith_iff in E' as [rest Hrest]
    end;
    (split;
     [ rewrite Hrest at 1; rewrite Hrest; reflexivity
     | intros o' v' Hv'%Hst; destruct o'; cbn [op_str String.length] in *;
       first [lia | congruence] ]).
Qed.

Lemma reads_as_find_prefix t o v :
  reads_as t o v → find_prefix operators t = Some (o, v).
Proof.
  intros [Ht Hmax].
  destruct (find_prefix operators t) as [[o1 v1]|] eqn:E.
  - destruct (find_prefix_longest _ _ _ E) as [Ht1 Hmax1].
    pose proof (Hmax o1 v1 Ht1) as H1. pose proof (Hmax1 o v Ht) as H2.
    rewrite Ht in Ht1. clear -Ht1 H1 H2.
    destruct o, o1; cbn [op_str String.length] in *; try lia;
      rewrite ?append_cons, ?append_nil_l in Ht1; congruence.
  - exfalso.
    assert (Py.startswith t (op_str o) = true) as Hs
      by (apply startswith_iff; eauto).
    unfold operators in E. cbn [find_prefix op_str] in E.
    destruct o; cbn [op_str] in Hs;
      repeat match type of E with
             | (if ?b then _ else _) = _ => destruct b eqn:?
             end; congruence.
Qed.

(** C7.  A requirement matches a version exactly when every constraint
    in it holds: for every token that reads as a constraint, that is,
    starts with an operator, the rest of the token parses as a version
    and the given version stands to it as the operator asks, in the order
    of the triples.  A requirement without tokens matches every version;
    [>=0.12.0 <0.13.0] matches 0.12.5 and does not match 0.13.0. *)
Theorem matches_is_conjunction :
  (∀ req ver,
     matches_version_req req ver = true
     ↔ ∀ t o v, t ∈ Py.split_ws req → reads_as t o v →
         ∃ sv, parse_semver v = Ok sv ∧ satisfies ver o sv)
  ∧ (∀ ver, matches_version_req "" ver = true)
  ∧ matches_version_req ">=0.12.0 <0.13.0" (0, 12, 5) = true
  ∧ matches_version_req ">=0.12.0 <0.13.0" (0, 13, 0) = false.
Proof.
  split; [|repeat split; reflexivity].
  intros req ver. rewrite matches_tokenwise, forallb_forall. split.
  - intros H t o v Ht Hr%reads_as_find_prefix.
    assert (In (o, v) (omap (find_prefix operators) (Py.split_ws req))) as Hin.
    { apply list_elem_of_In, list_elem_of_omap. eauto. }
    apply H in Hin. unfold holds in Hin. cbn [fst snd] in Hin.
    unfold parse_semver. destruct (match_semver v) as [sv|]; [|discriminate].
    exists sv. split; [reflexivity|]. by apply op_ok_satisfies.
  - intros H [o v] (t & Ht & Hp)%list_elem_of_In%list_elem_of_omap.
    apply find_prefix_longest in Hp.
    destruct (H t o v Ht Hp) as (sv & Hsv & Hs).
    unfold holds. cbn [fst snd]. unfold parse_semver in Hsv.
    destruct (match_semver v) as [sv'|]; [|discriminate].
    injection Hsv as ->. by apply op_ok_satisfies.
Qed.

End SemverMore.

(** X4 at a requirement and the same with its two tokens exchanged. *)
Lemma token_order_is_irrelevant_witness :
  Semver.matches_version_req ">=0.12.0 <0.13.0" (0, 12, 5)
  = Semver.matches_version_req "<0.13.0   >=0.12.0" (0, 12, 5).
Proof.
  apply (token_order_is_irrelevant ">=0.12.0 <0.13.0" "<0.13.0   >=0.12.0").
  vm_compute. apply perm_swap.
Defined.

(** X5 at a bare version. *)
Lemma tokens_without_operator_are_ignored_witness :
  Semver.matches_version_req "0.12.0" (0, 11, 0) = true.
Proof.
  apply (tokens_without_operator_are_ignored "0.12.0" (0, 11, 0)).
  vm_compute. repeat constructor.
Defined.

(** X6 at a version with two numbers. *)
Lemma bad_operand_matches_nothing_witness :
  Semver.matches_version_req ">=0.12" (0, 13, 0) = false.
Proof.
  apply (bad_operand_matches_nothing ">=0.12" (0, 13, 0) ">=0.12" Semver.Ge "0.12").
  - vm_compute. apply elem_of_cons. by left.
  - reflexivity.
  - reflexivity.
Defined.

(** X8 at a release candidate. *)
Lemma parse_semver_reads_a_prefix_witness :
  Semver.parse_semver (" " +:+ "0.12.0" +:+ "-rc1") = Ok (0, 12, 0).
Proof.
  apply (parse_semver_reads_a_prefix " " "0.12.0" "-rc1" (0, 12, 0)).
  - reflexivity.
  - repeat constructor.
  - reflexivity.
Defined.

(** ** More on git sources *)

Section GitMore.

Import Pathlib Git.

Lemma lower_char_slash c : Ascii.eqb "/" (Py.lower_char c) = Ascii.eqb "/" c.
Proof. destruct c as [[] [] [] [] [] [] [] []]; reflexivity. Qed.

Lemma lower_keeps_slashes s :
  Py.contains_char "/" (Py.lower s) = Py.contains_char "/" s.
Proof.
  induction s as [|c s IH]; [reflexivity|].
  cbn [Py.lower Py.contains_char]. by rewrite lower_char_slash, IH.
Qed.

Lemma alias_has_no_slash a h :
  hosts !! Py.lower a = Some h → Py.contains_char "/" a = false.
Proof.
  unfold hosts. intros H%elem_of_list_to_map_2.
  rewrite <- lower_keeps_slashes.
  repeat (apply elem_of_cons in H as [H|H];
          [injection H as -> _; reflexivity|]).
  by apply elem_of_nil in H.
Qed.

Lemma join_cons_cons sep x y l :
  Py.join sep (x :: y :: l) = x +:+ sep +:+ Py.join sep (y :: l).
Proof. reflexivity. Qed.

(** Joining the segments of a split gives the text back. *)
Lemma join_split sep s : Py.join (String sep "") (Py.split sep s) = s.
Proof.
  induction s as [|c s IH]; [reflexivity|].
  cbn [Py.split].
  destruct (Ascii.eqb_spec c sep) as [->|Hne].
  - destruct (Py.split sep s) as [|y l] eqn:E.
    + by destruct s; cbn in E; try destruct (Ascii.eqb _ _);
        try destruct (Py.split sep _).
    + rewrite join_cons_cons, IH. reflexivity.
  - destruct (Py.split sep s) as [|y [|z l]] eqn:E.
    + by destruct s; cbn in E; try destruct (Ascii.eqb _ _);
        try destruct (Py.split sep _).
    + cbn in *. by rewrite IH.
    + cbn [Py.cons_head]. rewrite !join_cons_cons in *.
      rewrite append_cons. by rewrite IH.
Qed.

Lemma split_nonempty sep s : Py.split sep s ≠ [].
Proof.
  destruct s as [|c s]; [done|]. cbn [Py.split].
  destruct (Ascii.eqb c sep); [done|]. by destruct (Py.split sep s).
Qed.

Lemma split1_app sep x t :
  Py.contains_char sep x = false →
  Py.split1 sep (x +:+ String sep t) = [x; t].
Proof.
  induction x as [|c x IH]; cbn [Py.contains_char].
  - intros _. rewrite append_nil_l. cbn. by rewrite Ascii.eqb_refl.
  - intros [Hc Hx]%orb_false_iff. rewrite append_cons. cbn [Py.split1].
    rewrite Ascii.eqb_sym, Hc, IH by done. reflexivity.
Qed.

Variable up : string → result ParseResult.

(** X9.  The alias form is read as it is written: an alias of the table
    in any mix of cases, an owner and a repository, neither empty, and
    whatever follows the next slash, resolve to the clone URL of that
    owner and repository on the alias's host, no ref, and what follows as
    the path.  The repository name is taken whole, a [.git] at its end
    included; the URL parser is not consulted. *)
Theorem alias_form_is_read_verbatim a h user repo p :
  hosts !! Py.lower a = Some h →
  user ≠ "" → Py.contains_char "/" user = false →
  repo ≠ "" → Py.contains_char "/" repo = false →
  parse_git_source up (a +:+ "/" +:+ user +:+ "/" +:+ repo +:+ "/" +:+ p)
  = Ok {| repo_url_for_clone := clone_url h user repo;
          git_ref := None;
          path_in_repo := Path p;
          provider_host := h;
          user_or_org := user |}
  ∧ parse_git_source up (a +:+ "/" +:+ user +:+ "/" +:+ repo)
    = Ok {| repo_url_for_clone := clone_url h user repo;
            git_ref := None;
            path_in_repo := Path "";
            provider_host := h;
            user_or_org := user |}.
Proof.
  intros Ha Hu Hus Hr Hrs.
  pose proof (alias_has_no_slash a h Ha) as Has.
  assert (nonempty h = true) as Hh
    by eauto using known_host_nonempty, hosts_range.
  apply nonempty_true in Hu, Hr.
  unfold parse_git_source, alias_form.
  assert (∀ x, "/" +:+ x = String "/" x) as Hslash by reflexivity.
  rewrite !Hslash.
  split.
  - rewrite !split_app by done.
    destruct (Py.split "/" p) as [|p0 ps] eqn:Ep; [by apply split_nonempty in Ep|].
    rewrite bool_decide_true by (simpl; lia).
    change ((a :: user :: repo :: p0 :: ps) !!! 0%nat) with a.
    change ((a :: user :: repo :: p0 :: ps) !!! 1%nat) with user.
    change (drop 2 (a :: user :: repo :: p0 :: ps)) with (repo :: p0 :: ps).
    rewrite Ha. change (default "" (Some h)) with h.
    rewrite join_cons_cons, <- Ep, (join_split "/" p).
    change ("/" +:+ p) with (String "/" p).
    rewrite Hh, Hu. cbn [andb].
    assert (nonempty (repo +:+ String "/" p) = true) as ->.
    { apply nonempty_true. by destruct repo. }
    rewrite split1_app by done. cbn [app take]. by rewrite Hr.
  - rewrite split_app, split_app, split_sep_free by done.
    rewrite bool_decide_true by (simpl; lia).
    change ([a; user; repo] !!! 0%nat) with a.
    change ([a; user; repo] !!! 1%nat) with user.
    change (drop 2 [a; user; repo]) with [repo].
    rewrite Ha. change (default "" (Some h)) with h.
    change (Py.join "/" [repo]) with repo.
    rewrite Hh, Hu, Hr. cbn [andb].
    destruct (split1_split "/" repo) as [[-> _]|(x & y & _ & Hxy)].
    + cbn [app take]. by rewrite Hr.
    + rewrite split_sep_free in Hxy by done. injection Hxy as _ Hy.
      symmetry in Hy. by apply split_nonempty in Hy.
Qed.

Lemma alias_form_owner s d :
  alias_form s = Some d →
  user_or_org d ≠ "" ∧ Py.contains_char "/" (user_or_org d) = false.
Proof.
  unfold alias_form.
  pose proof (split_no_sep "/" s) as Hfree.
  destruct (Py.split "/" s) as [|p0 [|user [|x rest]]] eqn:E;
    try (no_descriptor).
  rewrite bool_decide_true by (simpl; lia).
  change ((p0 :: user :: x :: rest) !!! 0%nat) with p0.
  change ((p0 :: user :: x :: rest) !!! 1%nat) with user.
  destruct (nonempty (default "" (hosts !! Py.lower p0))); [|no_descriptor].
  destruct (nonempty user) eqn:Hu; [|no_descriptor].
  destruct (nonempty (Py.join _ _)); [|no_descriptor].
  cbn [andb].
  assert (user ≠ "" ∧ Py.contains_char "/" user = false) as Hgoal.
  { split; [by apply nonempty_true in Hu|].
    apply Hfree. apply elem_of_cons; right. apply elem_of_cons; by left. }
  destruct (take 2 _) as [|r [|q [|]]]; try no_descriptor.
  destruct (nonempty r); [|no_descriptor].
  by intros [= <-].
Qed.

(** The segments of a URL's path. *)
Abbreviation segments u := (filter (λ s : string, s ≠ "") (Py.split "/" (path u))).

(** What the URL form returns. *)
Lemma url_form_cases s d :
  url_form up s = Ok d →
  ∃ u user repo rest,
    up s = Ok u
    ∧ segments u = user :: repo :: rest
    ∧ user_or_org d = user
    ∧ repo_url_for_clone d
      = clone_url (provider_host d) user (Py.removesuffix repo ".git")
    ∧ (provider_host d = "github.com"
       ∧ ((∃ marker ref tail,
             rest = marker :: ref :: tail ∧ is_tree_or_blob marker = true
             ∧ git_ref d = Some ref ∧ path_in_repo d = Path (Py.join "/" tail))
          ∨ ((∀ marker ref tail,
                rest = marker :: ref :: tail → is_tree_or_blob marker = false)
             ∧ git_ref d = None ∧ path_in_repo d = Path (Py.join "/" rest)))
       ∨ provider_host d = "gitlab.com"
         ∧ ((∃ marker ref tail,
               rest = "-" :: marker :: ref :: tail
               ∧ is_tree_or_blob marker = true
               ∧ git_ref d = Some ref
               ∧ path_in_repo d = Path (Py.join "/" tail))
            ∨ ((∀ marker ref tail,
                  rest = "-" :: marker :: ref :: tail →
                  is_tree_or_blob marker = false)
               ∧ git_ref d = None ∧ path_in_repo d = Path (Py.join "/" rest)))
       ∨ provider_host d = "bitbucket.org"
         ∧ git_ref d = None ∧ path_in_repo d = Path (Py.join "/" rest)).
Proof.
  unfold url_form. destruct (up s) as [u|e]; [|no_descriptor].
  cbn [mbind result_bind].
  destruct (negb _ || negb _); [no_descriptor|].
  set (host := if Py.startswith _ _ then _ else _). clearbody host.
  intros H. exists u. revert H.
  generalize (segments u). intros segs H.
  destruct segs as [|user [|repo rest]].
  { revert H. repeat rewrite (bool_decide_false (2 ≤ _)%nat) by (simpl; lia).
    rewrite !andb_false_r. no_descriptor. }
  { revert H. repeat rewrite (bool_decide_false (2 ≤ _)%nat) by (simpl; lia).
    rewrite !andb_false_r. no_descriptor. }
  exists user, repo, rest. split; [done|]. split; [done|].
  revert H.
  rewrite !(bool_decide_true (2 ≤ _)%nat) by (simpl; lia).
  rewrite !andb_true_r.
  change ((user :: repo :: rest) !!! 0%nat) with user.
  change ((user :: repo :: rest) !!! 1%nat) with repo.
  change (drop 2 (user :: repo :: rest)) with rest.
  destruct (String.eqb_spec host "github.com") as [->|_];
    [|destruct (String.eqb_spec host "gitlab.com") as [->|_];
      [|destruct (String.eqb_spec host "bitbucket.org") as [->|_]]];
    [| | |no_descriptor].
  - destruct rest as [|marker [|ref tail]].
    + rewrite !bool_decide_false by (simpl; lia). cbn [andb].
      intros [= <-]. cbn. repeat split. left. split; [done|]. right.
      repeat split. intros ??? [=].
    + rewrite (bool_decide_false (3 < _)%nat) by (simpl; lia).
      rewrite bool_decide_true by (simpl; lia). cbn [andb].
      intros [= <-]. cbn. repeat split. left. split; [done|]. right.
      repeat split. intros ??? [=].
    + rewrite (bool_decide_true (3 < _)%nat) by (simpl; lia).
      change ((user :: repo :: marker :: ref :: tail) !!! 2%nat) with marker.
      change ((user :: repo :: marker :: ref :: tail) !!! 3%nat) with ref.
      change (drop 4 (user :: repo :: marker :: ref :: tail)) with tail.
      cbn [andb].
      destruct (is_tree_or_blob marker) eqn:Hm.
      * intros [= <-]. cbn. repeat split. left. split; [done|]. left.
        exists marker, ref, tail. done.
      * rewrite bool_decide_true by (simpl; lia).
        intros [= <-]. cbn. repeat split. left. split; [done|]. right.
        repeat split. intros ??? [= -> -> ->]. done.
  - destruct rest as [|dash [|marker [|ref tail]]].
    + rewrite !bool_decide_false by (simpl; lia). cbn [andb].
      intros [= <-]. cbn. repeat split. right. left. split; [done|]. right.
      repeat split. intros ??? [=].
    + rewrite (bool_decide_false (4 < _)%nat) by (simpl; lia).
      rewrite bool_decide_true by (simpl; lia). cbn [andb].
      intros [= <-]. cbn. repeat split. right. left. split; [done|]. right.
      repeat split. intros ??? [=].
    + rewrite (bool_decide_false (4 < _)%nat) by (simpl; lia).
      rewrite bool_decide_true by (simpl; lia). cbn [andb].
      intros [= <-]. cbn. repeat split. right. left. split; [done|]. right.
      repeat split. intros ??? [=].
    + rewrite (bool_decide_true (4 < _)%nat) by (simpl; lia).
      change ((user :: repo :: dash :: marker :: ref :: tail) !!! 2%nat)
        with dash.
      change ((user :: repo :: dash :: marker :: ref :: tail) !!! 3%nat)
        with marker.
      change ((user :: repo :: dash :: marker :: ref :: tail) !!! 4%nat)
        with ref.
      change (drop 5 (user :: repo :: dash :: marker :: ref :: tail))
        with tail.
      cbn [andb].
      destruct (String.eqb_spec dash "-") as [->|Hd]; cbn [andb].
      * destruct (is_tree_or_blob marker) eqn:Hm.
        -- intros [= <-]. cbn. repeat split. right. left. split; [done|].
           left. exists marker, ref, tail. done.
        -- rewrite bool_decide_true by (simpl; lia).
           intros [= <-]. cbn. repeat split. right. left. split; [done|].
           right. repeat split. intros ??? [= -> -> ->]. done.
      * rewrite bool_decide_true by (simpl; lia).
        intros [= <-]. cbn. repeat split. right. left. split; [done|].
        right. repeat split. intros ??? [= -> -> ->]. done.
  - destruct rest as [|x rest].
    + rewrite !bool_decide_false by (simpl; lia).
      intros [= <-]. cbn. repeat split. right. right. done.
    + rewrite bool_decide_true by (simpl; lia).
      intros [= <-]. cbn. repeat split. right. right. done.
Qed.

Lemma segment_facts u x :
  x ∈ segments u → x ≠ "" ∧ Py.contains_char "/" x = false.
Proof.
  intros [Hx Hin]%list_elem_of_filter. split; [done|].
  by apply split_no_sep in Hin.
Qed.

(** X10.  A ref is set only by a [tree] or [blob] marker of a URL: when
    the descriptor carries a ref, the source was resolved as a URL of
    GitHub, whose path segments are owner, repository, marker, ref and
    the path, or of GitLab, whose path segments are owner, repository, a
    hyphen, marker, ref and the path.  The ref is not empty, so the clone
    is asked for that branch; a Bitbucket URL never gives a ref. *)
Theorem ref_comes_from_a_marker s d ref :
  parse_git_source up s = Ok d →
  git_ref d = Some ref →
  ∃ u user repo marker tail,
    up s = Ok u
    ∧ (marker = "tree" ∨ marker = "blob")
    ∧ ref ≠ ""
    ∧ Cli.truthy (git_ref d) = true
    ∧ path_in_repo d = Path (Py.join "/" tail)
    ∧ (provider_host d = "github.com"
       ∧ segments u = user :: repo :: marker :: ref :: tail
       ∨ provider_host d = "gitlab.com"
         ∧ segments u = user :: repo :: "-" :: marker :: ref :: tail).
Proof.
  unfold parse_git_source.
  destruct (alias_form s) as [d'|] eqn:Ha.
  { intros [= ->]. apply alias_form_inv in Ha as (-> & _). discriminate. }
  intros (u & user & repo & rest & Hu & Hsegs & _ & _ & Hcases)%url_form_cases Hr.
  assert (∀ m, is_tree_or_blob m = true → m = "tree" ∨ m = "blob") as Hm.
  { intros m. unfold is_tree_or_blob. rewrite orb_true_iff, !String.eqb_eq. done. }
  assert (∀ l, segments u = l → ref ∈ l → ref ≠ "" ∧ Cli.truthy (git_ref d) = true)
    as Hne.
  { intros l <- Hin%segment_facts. split; [tauto|].
    rewrite Hr. cbn. apply nonempty_true. tauto. }
  exists u, user, repo.
  destruct Hcases as [[Hh [(m & r & tail & -> & Hmk & Href & Hp)|(_ & Href & _)]]
                     |[[Hh [(m & r & tail & -> & Hmk & Href & Hp)|(_ & Href & _)]]
                      |(_ & Href & _)]];
    try congruence.
  - assert (r = ref) as -> by congruence.
    exists m, tail. destruct (Hne _ Hsegs) as [? ?].
    { do 3 (apply elem_of_cons; right). apply elem_of_cons. by left. }
    repeat split; auto.
  - assert (r = ref) as -> by congruence.
    exists m, tail. destruct (Hne _ Hsegs) as [? ?].
    { do 4 (apply elem_of_cons; right). apply elem_of_cons. by left. }
    repeat split; auto.
Qed.

Lemma provider_abbr_known h :
  h ∈ known_hosts → Cli.provider_abbr h ∈ ["gh"; "gl"; "bb"].
Proof.
  unfold known_hosts. intros H.
  repeat (apply elem_of_cons in H as [->|H]; [vm_compute; set_solver|]).
  by apply elem_of_nil in H.
Qed.

Lemma contains_char_app c a b :
  Py.contains_char c (a +:+ b) = Py.contains_char c a || Py.contains_char c b.
Proof.
  induction a as [|d a IH]; [by rewrite append_nil_l|].
  rewrite append_cons. cbn [Py.contains_char]. by rewrite IH, orb_assoc.
Qed.

(** X11.  For every source that resolves, the provider host is one of the
    three the resolver knows and the owner is a non-empty name without a
    slash.  So the table of short provider names never falls back on its
    default, and the namespace [install] builds from the short name and
    the owner holds no slash: it is one component of the install path. *)
Theorem install_namespace_is_one_name s d :
  parse_git_source up s = Ok d →
  provider_host d ∈ known_hosts
  ∧ user_or_org d ≠ ""
  ∧ Cli.provider_abbr (provider_host d) ∈ ["gh"; "gl"; "bb"]
  ∧ Py.contains_char "/"
      (Cli.provider_abbr (provider_host d) +:+ "-" +:+ user_or_org d) = false.
Proof.
  intros H.
  assert (user_or_org d ≠ "" ∧ Py.contains_char "/" (user_or_org d) = false)
    as [Hne Hfree].
  { revert H. unfold parse_git_source.
    destruct (alias_form s) as [d'|] eqn:Ha.
    - intros [= ->]. by apply alias_form_owner in Ha.
    - intros (u & user & repo & rest & _ & Hsegs & -> & _)%url_form_cases.
      apply (segment_facts u). rewrite Hsegs. apply elem_of_cons. by left. }
  apply parse_git_source_inv in H as (Hh & _).
  pose proof (provider_abbr_known _ Hh) as Habbr.
  repeat split; try done.
  rewrite !contains_char_app, Hfree, !orb_false_r.
  repeat (apply elem_of_cons in Habbr as [->|Habbr]; [reflexivity|]).
  by apply elem_of_nil in Habbr.
Qed.

End GitMore.

(** X9 at an alias in capitals and a repository name that ends in
    [.git]. *)
Lemma alias_form_is_read_verbatim_witness :
  Git.parse_git_source Urllib.urlparse
    ("GH" +:+ "/" +:+ "acme" +:+ "/" +:+ "widgets.git" +:+ "/" +:+ "a/../b")
  = Ok {| Git.repo_url_for_clone :=
            Git.clone_url "github.com" "acme" "widgets.git";
          Git.git_ref := None;
          Git.path_in_repo := Pathlib.Path "a/../b";
          Git.provider_host := "github.com";
          Git.user_or_org := "acme" |}
  ∧ Git.parse_git_source Urllib.urlparse
      ("GH" +:+ "/" +:+ "acme" +:+ "/" +:+ "widgets.git")
    = Ok {| Git.repo_url_for_clone :=
              Git.clone_url "github.com" "acme" "widgets.git";
            Git.git_ref := None;
            Git.path_in_repo := Pathlib.Path "";
            Git.provider_host := "github.com";
            Git.user_or_org := "acme" |}.
Proof.
  apply (alias_form_is_read_verbatim Urllib.urlparse "GH" "github.com" "acme"
           "widgets.git" "a/../b"); vm_compute; congruence.
Defined.

(** X10 at a GitLab URL with a branch. *)
Lemma ref_comes_from_a_marker_witness :
  ∃ d u user repo marker tail,
    Git.parse_git_source Urllib.urlparse
      "https://gitlab.com/team/tool/-/tree/v2/pkg" = Ok d
    ∧ Urllib.urlparse "https://gitlab.com/team/tool/-/tree/v2/pkg" = Ok u
    ∧ (marker = "tree" ∨ marker = "blob")
    ∧ "v2" ≠ ""
    ∧ Cli.truthy (Git.git_ref d) = true
    ∧ Git.path_in_repo d = Pathlib.Path (Py.join "/" tail)
    ∧ (Git.provider_host d = "github.com"
       ∧ filter (λ s : string, s ≠ "") (Py.split "/" (Git.path u))
         = user :: repo :: marker :: "v2" :: tail
       ∨ Git.provider_host d = "gitlab.com"
         ∧ filter (λ s : string, s ≠ "") (Py.split "/" (Git.path u))
           = user :: repo :: "-" :: marker :: "v2" :: tail).
Proof.
  eexists.
  destruct (ref_comes_from_a_marker Urllib.urlparse
              "https://gitlab.com/team/tool/-/tree/v2/pkg" _ "v2"
              eq_refl eq_refl)
    as (u & user & repo & marker & tail & H).
  exists u, user, repo, marker, tail. split; [reflexivity|]. exact H.
Defined.

(** X11 at a Bitbucket URL. *)
Lemma install_namespace_is_one_name_witness :
  ∃ d, Git.parse_git_source Urllib.urlparse
         "https://www.bitbucket.org/team/tool" = Ok d
       ∧ Git.provider_host d ∈ Git.known_hosts
       ∧ Git.user_or_org d ≠ ""
       ∧ Cli.provider_abbr (Git.provider_host d) ∈ ["gh"; "gl"; "bb"]
       ∧ Py.contains_char "/"
           (Cli.provider_abbr (Git.provider_host d) +:+ "-"
            +:+ Git.user_or_org d) = false.
Proof.
  eexists. split; [reflexivity|].
  apply (install_namespace_is_one_name Urllib.urlparse
           "https://www.bitbucket.org/team/tool").
  reflexivity.
Defined.

(** ** More on exclusion rules *)

Section ExcludeMore.

Import FS Fnmatch Exclude.

(** A star in front of plain text matches the names that end with that
    text. *)
Lemma match_star_literal lit name :
  match_items (Star :: (Lit <$> list_ascii_of_string lit)) name
  = Py.endswith name lit.
Proof.
  induction name as [|c name IH].
  - cbn [match_items Py.endswith]. rewrite match_literal.
    by destruct (String.eqb "" lit).
  - change (match_items (Star :: (Lit <$> list_ascii_of_string lit))
              (String c name))
      with (match_items (Lit <$> list_ascii_of_string lit) (String c name)
            || match_items (Star :: (Lit <$> list_ascii_of_string lit)) name).
    rewrite match_literal, IH. cbn [Py.endswith].
    by destruct (String.eqb (String c name) lit).
Qed.

Lemma fnmatch_star_literal name lit :
  literal lit → fnmatch name ("*" +:+ lit) = Py.endswith name lit.
Proof.
  intros Hlit. unfold fnmatch, translate.
  change ("*" +:+ lit) with (String "*" lit).
  cbn [String.length translate_go]. change (Ascii.eqb "*" "*") with true.
  cbn iota. rewrite translate_literal by (done || lia).
  apply match_star_literal.
Qed.

(** X12.  A star matches across directory separators: a pattern made of
    a star and plain text that does not end with a separator excludes
    exactly the files whose path relative to the source root ends with
    that text, at whatever depth they lie. *)
Theorem star_crosses_directories (f : fs) base_dir file_path lit :
  literal lit →
  Py.endswith lit "/" = false →
  should_exclude f file_path ["*" +:+ lit] base_dir
  = Py.endswith (os_path_relpath file_path base_dir) lit.
Proof.
  intros Hlit Hsep. unfold should_exclude, pattern_excludes. cbn [existsb].
  rewrite orb_false_r, fnmatch_star_literal by done.
  destruct (Py.endswith (os_path_relpath file_path base_dir) lit);
    [reflexivity|].
  change ("*" +:+ lit) with (String "*" lit).
  assert (Py.endswith (String "*" lit) "/" = false) as ->.
  { destruct lit as [|c lit]; [reflexivity|]. by rewrite endswith_cons. }
  assert (has_glob_chars (String "*" lit) = true) as -> by reflexivity.
  reflexivity.
Qed.














End ExcludeMore.

(** X12 at the pattern for backup files. *)
Lemma star_crosses_directories_witness :
  Exclude.should_exclude ∅ ["src"; "a"; "b"; "c.bak"] ["*" +:+ ".bak"] ["src"]
  = Py.endswith (FS.os_path_relpath ["src"; "a"; "b"; "c.bak"] ["src"]) ".bak".
Proof.
  apply (star_crosses_directories ∅ ["src"] ["src"; "a"; "b"; "c.bak"] ".bak").
  - repeat split.
  - reflexivity.
Defined.


(** ** More on the commands *)

Section BuildMore.

Import FS Materialize Cli.

Variable w : World.

Lemma read_toml_file p data st :
  node_at (files st) p = Some (File data) →
  read_toml w p st
  = match toml_load w data with
    | Ok cfg => (Done cfg, st)
    | Raise e => (Raised e, st)
    end.
Proof.
  intros H. unfold read_toml, mbind, M_bind, get_files. rewrite H.
  by destruct (toml_load w data).
Qed.

Lemma truthy_some s : s ≠ "" → truthy (Some s) = true.
Proof. intros H. by apply nonempty_true. Qed.

(** X17.  [build] checks the package name against the directory of the
    manifest before it does anything to the file system: when the
    manifest is found and read, names a package and a version, and the
    compiler requirement (if any) is met, but the package name differs
    from the name of the directory that holds the manifest, the command
    raises [BadParameter] with both names in the message, and no file has
    been matched, read, written or made, and no template compiled. *)
Theorem build_rejects_a_misnamed_package fuel toml_file output_dir namespace
    st toml_path data cfg name version :
  find_manifest (files st) toml_file = Ok toml_path →
  node_at (files st) toml_path = Some (File data) →
  toml_load w data = Ok cfg →
  package_name cfg = Some name → name ≠ "" →
  package_version cfg = Some version → version ≠ "" →
  check_compiler w (package_compiler cfg) = Ok tt →
  name ≠ basename (parent toml_path) →
  build w fuel toml_file output_dir namespace st
  = (Raised (BadParameter
               ("Package name '" +:+ name
                +:+ "' does not match parent directory name '"
                +:+ basename (parent toml_path) +:+ "'")),
     st).
Proof.
  intros Hfind Hnode Hload Hname Hn Hver Hv Hcomp Hdiff.
  unfold build, build_setup.
  unfold mbind at 1, M_bind at 1.
  unfold mbind at 1, M_bind at 1, get_files at 1.
  rewrite Hfind.
  unfold mbind at 1, M_bind at 1. cbn [lift mret M_ret].
  unfold mbind at 1, M_bind at 1.
  rewrite (read_toml_file _ data) by done. rewrite Hload.
  rewrite Hname, Hver, !truthy_some by done. cbn [negb orb default].
  rewrite Hcomp.
  unfold mbind at 1, M_bind at 1. cbn [lift mret M_ret].
  unfold mbind at 1, M_bind at 1.
  unfold validate_package_name, id.
  apply String.eqb_neq in Hdiff. rewrite Hdiff.
  reflexivity.
Qed.

End BuildMore.

(** X17 at a package named [bar] in the directory [foo]. *)
Lemma build_rejects_a_misnamed_package_witness :
  Cli.build (Sample.world (Sample.manifest_of "bar" "1.0.0") []) 20
    ["pkg"; "foo"] "out" "preview" Sample.misnamed
  = (Materialize.Raised
       (BadParameter
          ("Package name '" +:+ "bar"
           +:+ "' does not match parent directory name '"
           +:+ FS.basename (FS.parent ["pkg"; "foo"; "typst.toml"]) +:+ "'")),
     Sample.misnamed).
Proof.
  refine (build_rejects_a_misnamed_package
            (Sample.world (Sample.manifest_of "bar" "1.0.0") []) 20
            ["pkg"; "foo"] "out" "preview" Sample.misnamed
            ["pkg"; "foo"; "typst.toml"] ("[package]" +:+ Sample.lf)
            (Sample.manifest_of "bar" "1.0.0") "bar" "1.0.0"
            _ _ _ _ _ _ _ _ _).
  - vm_compute. reflexivity.
  - vm_compute. reflexivity.
  - reflexivity.
  - reflexivity.
  - congruence.
  - reflexivity.
  - congruence.
  - reflexivity.
  - vm_compute. congruence.
Defined.
